(** * Verification of the recordings uploader ([uploader.py])

    The program scans a recordings directory, selects every [.mp4] file but
    the newest one, renames each selected file after its creation time,
    uploads it to an object store under a dated key and removes the local
    copy once the upload has succeeded.

    The development is organised as follows:
    - [Pathlib]: the fragment of [pathlib.Path] the program uses;
    - [Datetime]: [datetime.fromtimestamp] and [strftime];
    - [Fs]: the local file system as an association list;
    - [Py]: exceptions, the world (file system and event trace) and the
      state-and-exception monad in which the program runs;
    - [Uploader]: the four functions of [uploader.py];
    - the facts about these definitions and the properties of the program. *)

From Stdlib Require Import ZArith List String Ascii Bool Lia.
From Stdlib Require Import Permutation Sorted.
Import ListNotations.

Local Open Scope string_scope.
Local Open Scope Z_scope.

(** ** Bounded universal checks

    Several facts about calendar arithmetic and digit formatting range over
    a finite interval of integers; they are settled by running a boolean
    test on every point of the interval. *)

Fixpoint all_from (n : nat) (lo : Z) (P : Z -> bool) : bool :=
  match n with
  | O => true
  | S k => if P lo then all_from k (lo + 1) P else false
  end.

Definition all_below (n : Z) (P : Z -> bool) : bool :=
  all_from (Z.to_nat n) 0 P.

(** ** Paths *)

Module Pathlib.

(** A path is the list of its components ([PurePath.parts]). *)
Definition Path := list string.

Fixpoint path_eqb (p q : Path) : bool :=
  match p, q with
  | [], [] => true
  | a :: p', b :: q' => String.eqb a b && path_eqb p' q'
  | _, _ => false
  end.

(** [p / s] for a single component [s]. *)
Definition truediv (p : Path) (s : string) : Path := (p ++ [s])%list.

(** [p.name] *)
Definition name (p : Path) : string := last p "".

(** [p.parent] *)
Definition parent (p : Path) : Path := removelast p.

(** [str(p)] *)
Definition str (p : Path) : string := String.concat "/" p.

(** [s.rfind(c)]: the index of the last occurrence of [c]. *)
Fixpoint rfind (c : ascii) (s : string) : option nat :=
  match s with
  | EmptyString => None
  | String a s' =>
      match rfind c s' with
      | Some i => Some (S i)
      | None => if Ascii.eqb a c then Some O else None
      end
  end.

(** [p.suffix]: the last dot-separated part of the name, dot included,
    when the dot is neither the first nor the last character. *)
Definition suffix (p : Path) : string :=
  let n := name p in
  match rfind "." n with
  | Some i =>
      if (Nat.ltb 0 i && Nat.ltb i (String.length n - 1))%bool
      then substring i (String.length n - i) n
      else ""
  | None => ""
  end.

End Pathlib.

(** ** Dates and times *)

Module Datetime.

Record datetime := mkdt {
  year : Z; month : Z; day : Z;
  hour : Z; minute : Z; second : Z;
  microsecond : Z
}.

(** Month and day of a day number within a 400-year era that starts on
    the first of March. *)
Definition yoe_of_doe (doe : Z) : Z :=
  (doe - doe / 1460 + doe / 36524 - doe / 146096) / 365.

Definition doy_of_doe (doe : Z) : Z :=
  let yoe := yoe_of_doe doe in
  doe - (365 * yoe + yoe / 4 - yoe / 100).

Definition mp_of_doe (doe : Z) : Z := (5 * doy_of_doe doe + 2) / 153.

Definition month_of_doe (doe : Z) : Z :=
  let mp := mp_of_doe doe in
  if mp <? 10 then mp + 3 else mp - 9.

Definition day_of_doe (doe : Z) : Z :=
  doy_of_doe doe - (153 * mp_of_doe doe + 2) / 5 + 1.

(** Proleptic Gregorian date of a day count since 1970-01-01. *)
Definition civil_from_days (days : Z) : Z * Z * Z :=
  let z := days + 719468 in
  let era := z / 146097 in
  let doe := z mod 146097 in
  let y := yoe_of_doe doe + era * 400 in
  let m := month_of_doe doe in
  ((if m <=? 2 then y + 1 else y), m, day_of_doe doe).

Definition MINYEAR : Z := 1.
Definition MAXYEAR : Z := 9999.

(** [datetime.fromtimestamp(ts)]: the local date and time of a POSIX
    timestamp.  The timestamp is counted in microseconds, the resolution
    of [datetime]; [utcoffset] gives the offset of local time from UTC,
    in seconds, at a given instant.  [None] stands for the exception
    raised when the year leaves [MINYEAR..MAXYEAR]. *)
Definition fromtimestamp (utcoffset : Z -> Z) (ts : Z) : option datetime :=
  let secs := ts / 1000000 in
  let loc := secs + utcoffset secs in
  let sod := loc mod 86400 in
  let '(y, m, d) := civil_from_days (loc / 86400) in
  if (MINYEAR <=? y) && (y <=? MAXYEAR) then
    Some {| year := y; month := m; day := d;
            hour := sod / 3600;
            minute := (sod mod 3600) / 60;
            second := sod mod 60;
            microsecond := ts mod 1000000 |}
  else None.

(** *** Formatting *)

Definition digit (n : Z) : ascii := ascii_of_nat (48 + Z.to_nat n).

Fixpoint decimal_aux (fuel : nat) (n : Z) (acc : string) : string :=
  match fuel with
  | O => acc
  | S f =>
      let acc' := String (digit (n mod 10)) acc in
      if n <? 10 then acc' else decimal_aux f (n / 10) acc'
  end.

(** [str(n)] for a natural number [n]. *)
Definition decimal (n : Z) : string :=
  decimal_aux (S (Z.to_nat (Z.log2 n))) n "".

Fixpoint zeros (k : nat) : string :=
  match k with
  | O => ""
  | S k' => String "0" (zeros k')
  end.

(** ["%0wd" % n] *)
Definition zpad (w : nat) (n : Z) : string :=
  let s := decimal n in
  zeros (w - String.length s) ++ s.

(** One conversion specification of [strftime]. *)
Definition directive (c : ascii) (dt : datetime) : string :=
  if Ascii.eqb c "d" then zpad 2 (day dt)
  else if Ascii.eqb c "m" then zpad 2 (month dt)
  else if Ascii.eqb c "Y" then zpad 4 (year dt)
  else if Ascii.eqb c "H" then zpad 2 (hour dt)
  else if Ascii.eqb c "M" then zpad 2 (minute dt)
  else if Ascii.eqb c "S" then zpad 2 (second dt)
  else if Ascii.eqb c "%" then "%"
  else String "%" (String c "").

(** [dt.strftime(fmt)] *)
Fixpoint strftime (fmt : string) (dt : datetime) : string :=
  match fmt with
  | EmptyString => ""
  | String a rest =>
      if Ascii.eqb a "%" then
        match rest with
        | EmptyString => "%"
        | String c rest' => directive c dt ++ strftime rest' dt
        end
      else String a (strftime rest dt)
  end.

(** The ranges [datetime] guarantees for its fields. *)
Definition valid (dt : datetime) : Prop :=
  MINYEAR <= year dt <= MAXYEAR /\
  1 <= month dt <= 12 /\
  1 <= day dt <= 31 /\
  0 <= hour dt <= 23 /\
  0 <= minute dt <= 59 /\
  0 <= second dt <= 59 /\
  0 <= microsecond dt <= 999999.

End Datetime.

(** ** The local file system *)

Module Fs.
Import Pathlib.

(** What [os.stat] reports about a file.  [ino] identifies the file
    itself, whatever its name; [st_birthtime] is absent on platforms
    whose [stat_result] has no such attribute.  Times are counted in
    microseconds. *)
Record File := mkFile {
  ino : nat;
  is_file : bool;
  st_mtime : Z;
  st_birthtime : option Z;
  st_ctime : Z
}.

(** The file system: the files by path, in the order in which a
    directory scan reports them. *)
Definition FS := list (Path * File).

Fixpoint lookup (p : Path) (fs : FS) : option File :=
  match fs with
  | [] => None
  | (q, f) :: rest => if path_eqb q p then Some f else lookup p rest
  end.

Definition remove (p : Path) (fs : FS) : FS :=
  filter (fun e => negb (path_eqb (fst e) p)) fs.

(** [os.rename(src, dst)]: fails when [src] does not exist; an existing
    [dst] is replaced. *)
Definition rename (src dst : Path) (fs : FS) : option FS :=
  match lookup src fs with
  | None => None
  | Some f =>
      if path_eqb src dst then Some fs
      else Some ((dst, f) :: remove dst (remove src fs))
  end.

(** [os.unlink(p)]: fails when [p] does not exist. *)
Definition unlink (p : Path) (fs : FS) : option FS :=
  match lookup p fs with
  | None => None
  | Some _ => Some (remove p fs)
  end.

(** [p] is an entry of the directory [dir]. *)
Definition in_dir (dir p : Path) : bool :=
  path_eqb p (truediv dir (name p)).

(** [dir.iterdir()], with what [stat] reports for each entry. *)
Definition iterdir (dir : Path) (fs : FS) : list (Path * File) :=
  filter (fun e => in_dir dir (fst e)) fs.

End Fs.

(** ** Exceptions, events and the monad of the program *)

Module Py.
Import Pathlib Fs.

(** The ways in which [S3.Client.upload_file] fails. *)
Inductive upload_error :=
| UploadBotoCoreError (msg : string)
| UploadClientError (msg : string)
| UploadS3UploadFailedError (msg : string).

Inductive exn :=
| RuntimeError (msg : string)
| SystemExit (code : Z)
| BotoCoreError (msg : string)
| ClientError (msg : string)
| S3UploadFailedError (msg : string)
| FileNotFoundError (filename : string)
| OverflowError (msg : string).

Definition exn_of_upload_error (e : upload_error) : exn :=
  match e with
  | UploadBotoCoreError m => BotoCoreError m
  | UploadClientError m => ClientError m
  | UploadS3UploadFailedError m => S3UploadFailedError m
  end.

(** [str(e)] *)
Definition str_exn (e : exn) : string :=
  match e with
  | RuntimeError m => m
  | SystemExit c => ""
  | BotoCoreError m => m
  | ClientError m => m
  | S3UploadFailedError m => m
  | FileNotFoundError f => f
  | OverflowError m => m
  end.

(** What the program does to the outside world, in order.  [EvStat] and
    [EvUpload] record calls, the latter with its outcome; [EvRename] and
    [EvUnlink] record changes that took place. *)
Inductive event :=
| EvClient (service region : string)
| EvScan (dir : Path)
| EvStat (p : Path)
| EvRename (src dst : Path)
| EvUpload (filename bucket key : string) (outcome : option upload_error)
| EvUnlink (p : Path)
| EvPrint (line : string).

Record World := mkWorld {
  fs : FS;
  trace : list event
}.

Inductive result (A : Type) :=
| Ok (a : A)
| Raise (e : exn).
Arguments Ok {A} a.
Arguments Raise {A} e.

Definition M (A : Type) := World -> result A * World.

Definition ret {A} (a : A) : M A := fun w => (Ok a, w).

Definition raise {A} (e : exn) : M A := fun w => (Raise e, w).

Definition bind {A B} (m : M A) (k : A -> M B) : M B :=
  fun w =>
    match m w with
    | (Ok a, w') => k a w'
    | (Raise e, w') => (Raise e, w')
    end.

(** [try: body / except classes as e: handler] *)
Definition try_except {A} (body : M A) (catches : exn -> bool)
    (handler : exn -> M A) : M A :=
  fun w =>
    match body w with
    | (Ok a, w') => (Ok a, w')
    | (Raise e, w') => if catches e then handler e w' else (Raise e, w')
    end.

Definition emit (e : event) : M unit :=
  fun w => (Ok tt, {| fs := fs w; trace := (trace w ++ [e])%list |}).

(** [for x in l: body(x)] *)
Fixpoint for_each {A} (l : list A) (body : A -> M unit) : M unit :=
  match l with
  | [] => ret tt
  | x :: rest => bind (body x) (fun _ => for_each rest body)
  end.

(** An S3 client: the outcome of an upload may depend on everything that
    happened so far. *)
Record S3Client := mkClient {
  upload_outcome : World -> string -> string -> string -> option upload_error
}.

(** [print(line)] *)
Definition print (line : string) : M unit := emit (EvPrint line).

(** [p.stat()] *)
Definition stat (p : Path) : M File :=
  bind (emit (EvStat p)) (fun _ w =>
    match lookup p (fs w) with
    | Some f => (Ok f, w)
    | None => (Raise (FileNotFoundError (str p)), w)
    end).

(** [src.rename(dst)] *)
Definition rename (src dst : Path) : M unit :=
  fun w =>
    match Fs.rename src dst (fs w) with
    | Some fs' =>
        (Ok tt, {| fs := fs'; trace := (trace w ++ [EvRename src dst])%list |})
    | None => (Raise (FileNotFoundError (str src)), w)
    end.

(** [p.unlink()] *)
Definition unlink (p : Path) : M unit :=
  fun w =>
    match Fs.unlink p (fs w) with
    | Some fs' =>
        (Ok tt, {| fs := fs'; trace := (trace w ++ [EvUnlink p])%list |})
    | None => (Raise (FileNotFoundError (str p)), w)
    end.

(** [s3_client.upload_file(filename, bucket, key)] *)
Definition upload_file (c : S3Client) (filename bucket key : string) : M unit :=
  fun w =>
    let o := upload_outcome c w filename bucket key in
    let w' := {| fs := fs w;
                 trace := (trace w ++ [EvUpload filename bucket key o])%list |} in
    match o with
    | None => (Ok tt, w')
    | Some e => (Raise (exn_of_upload_error e), w')
    end.

(** [sys.exit(code)] *)
Definition sys_exit {A} (code : Z) : M A := raise (SystemExit code).

End Py.

Declare Scope py_scope.
Delimit Scope py_scope with py.
Notation "x <- m ;; k" := (Py.bind m (fun x => k))
  (at level 61, m at next level, right associativity) : py_scope.
Notation "m ;; k" := (Py.bind m (fun _ => k))
  (at level 61, right associativity) : py_scope.

(** ** The program *)

Module Uploader.
Import Pathlib Datetime Fs Py.
Local Open Scope py_scope.

(** [RECORDINGS_DIR = Path("recordings")] *)
Definition RECORDINGS_DIR : Path := ["recordings"].

(** The process environment, as far as the program reads it. *)
Record Environ := mkEnviron {
  env_AWS_REGION : option string;
  env_S3_BUCKET_NAME : option string;
  env_S3_PREFIX : option string
}.

(** [s.rstrip(c)] *)
Fixpoint rstrip (c : ascii) (s : string) : string :=
  match s with
  | EmptyString => EmptyString
  | String a rest =>
      match rstrip c rest with
      | EmptyString => if Ascii.eqb a c then EmptyString else String a EmptyString
      | r => String a r
      end
  end.

(** [os.getenv(name, default)] *)
Definition getenv_default (v : option string) (default : string) : string :=
  match v with
  | Some s => s
  | None => default
  end.

(** The string held by a variable that has passed the check of [main]. *)
Definition checked (v : option string) : string :=
  match v with
  | Some s => s
  | None => ""
  end.

Definition AWS_REGION (env : Environ) : option string := env_AWS_REGION env.
Definition S3_BUCKET (env : Environ) : option string := env_S3_BUCKET_NAME env.
Definition S3_PREFIX (env : Environ) : string :=
  rstrip "/" (getenv_default (env_S3_PREFIX env) "").

(** Truth value of a string and of an optional string. *)
Definition truthy_str (s : string) : bool :=
  match s with
  | EmptyString => false
  | _ => true
  end.

Definition truthy (v : option string) : bool :=
  match v with
  | Some s => truthy_str s
  | None => false
  end.

(** [all(l)] *)
Definition all (l : list bool) : bool := forallb (fun b => b) l.

(** Insertion of an entry into a list sorted by modification time, after
    the entries that are strictly older and before those that are not:
    the sort is stable, as [sorted] is. *)
Fixpoint insert_by_mtime (x : Path * File) (l : list (Path * File))
    : list (Path * File) :=
  match l with
  | [] => [x]
  | y :: rest =>
      if st_mtime (snd x) <=? st_mtime (snd y) then x :: y :: rest
      else y :: insert_by_mtime x rest
  end.

(** [sorted(l, key=lambda f: f.stat().st_mtime)] *)
Definition sorted_by_mtime (l : list (Path * File)) : list (Path * File) :=
  fold_right insert_by_mtime [] l.

(** The entries a scan keeps: regular files whose suffix is [.mp4]. *)
Definition is_mp4_file (e : Path * File) : bool :=
  is_file (snd e) && String.eqb (suffix (fst e)) ".mp4".

(** The selection made from a directory listing. *)
Definition select_files (listing : list (Path * File)) : list Path :=
  let files := map fst (sorted_by_mtime (filter is_mp4_file listing)) in
  if (Nat.ltb (List.length files) 2) then [] else removelast files.

Section Platform.

(** Offset of local time from UTC, in seconds, at a given instant. *)
Variable utcoffset : Z -> Z.

Definition get_birth_datetime (path : Path) : M datetime :=
  st <- stat path ;;
  let t := match st_birthtime st with
           | Some b => b
           | None => st_ctime st
           end in
  match fromtimestamp utcoffset t with
  | Some dt => ret dt
  | None => raise (OverflowError "timestamp out of range for platform time_t")
  end.

Definition get_files_to_upload (recordings_dir : Path) : M (list Path) :=
  emit (EvScan recordings_dir) ;;
  fun w => (Ok (select_files (iterdir recordings_dir (fs w))), w).

Definition catches_boto (e : exn) : bool :=
  match e with
  | BotoCoreError _ | ClientError _ => true
  | _ => false
  end.

Definition upload_file_to_s3 (file_path : Path) (s3_client : S3Client)
    (bucket prefix : string) (recordings_dir : Path) : M bool :=
  try_except
    (birth_dt <- get_birth_datetime file_path ;;
     let mp4_name := strftime "gcam_%d%m%Y_%H%M%S.mp4" birth_dt in
     let mp4_path := truediv recordings_dir mp4_name in
     rename file_path mp4_path ;;
     let date_folder := strftime "%Y-%m-%d" birth_dt in
     let s3_key :=
       if truthy_str prefix
       then prefix ++ "/" ++ date_folder ++ "/" ++ mp4_name
       else date_folder ++ "/" ++ mp4_name in
     print ("Uploading to S3: s3://" ++ bucket ++ "/" ++ s3_key) ;;
     upload_file s3_client (str mp4_path) bucket s3_key ;;
     unlink mp4_path ;;
     print ("Deleted local file: " ++ mp4_name) ;;
     ret true)
    catches_boto
    (fun e =>
       print ("S3 upload failed for " ++ name file_path ++ ": " ++ str_exn e) ;;
       ret false).

(** [boto3.client]: creates a client for a service in a region, or
    fails. *)
Variable boto3_client : string -> string -> option S3Client.

Definition create_client (service region : string) : M S3Client :=
  emit (EvClient service region) ;;
  match boto3_client service region with
  | Some c => ret c
  | None => raise (BotoCoreError "client")
  end.

Definition main (env : Environ) : M unit :=
  if negb (all [truthy (AWS_REGION env); truthy (S3_BUCKET env)]) then
    raise (RuntimeError "Missing required AWS env variables")
  else
    s3_client <- create_client "s3" (checked (AWS_REGION env)) ;;
    files_to_process <- get_files_to_upload RECORDINGS_DIR ;;
    match files_to_process with
    | [] =>
        print "Not enough files to process" ;;
        sys_exit 0
    | _ =>
        for_each files_to_process (fun mp4_file =>
          upload_file_to_s3 mp4_file s3_client
            (checked (S3_BUCKET env)) (S3_PREFIX env)
            RECORDINGS_DIR ;;
          ret tt)
    end.

End Platform.

End Uploader.

(** ** Vocabulary of the specification *)

Module Spec.
Import Pathlib Datetime Fs Py Uploader.

(** The two decimal digits of a number below 100, and the four digits of
    a number below 10000. *)
Definition dd (n : Z) : string :=
  String (digit (n / 10)) (String (digit (n mod 10)) "").

Definition dddd (n : Z) : string :=
  String (digit (n / 1000))
    (String (digit ((n / 100) mod 10))
       (String (digit ((n / 10) mod 10))
          (String (digit (n mod 10)) ""))).

(** [gcam_DDMMYYYY_HHMMSS.mp4] *)
Definition gcam_name (dt : datetime) : string :=
  "gcam_" ++ dd (day dt) ++ dd (month dt) ++ dddd (year dt) ++ "_"
    ++ dd (hour dt) ++ dd (minute dt) ++ dd (second dt) ++ ".mp4".

(** [YYYY-MM-DD] *)
Definition date_name (dt : datetime) : string :=
  dddd (year dt) ++ "-" ++ dd (month dt) ++ "-" ++ dd (day dt).

(** The creation time of a file: its birth time when the platform
    reports one, the time of its last status change otherwise. *)
Definition creation_time (f : File) : Z :=
  match st_birthtime f with
  | Some b => b
  | None => st_ctime f
  end.

Definition is_decimal_digit (c : ascii) : bool :=
  (Nat.leb 48 (nat_of_ascii c) && Nat.leb (nat_of_ascii c) 57)%bool.

Fixpoint all_digits (s : string) : bool :=
  match s with
  | EmptyString => true
  | String c r => is_decimal_digit c && all_digits r
  end.

(** The object key: the dated folder and the file name, below the
    prefix when there is one. *)
Definition s3_key_of (prefix : string) (dt : datetime) : string :=
  if truthy_str prefix
  then prefix ++ "/" ++ date_name dt ++ "/" ++ gcam_name dt
  else date_name dt ++ "/" ++ gcam_name dt.

(** The file system once [src] has been renamed to [dst], when [src]
    holds the file [f]. *)
Definition renamed (src dst : Path) (f : File) (fs0 : FS) : FS :=
  if path_eqb src dst then fs0
  else (dst, f) :: remove dst (remove src fs0).

Definition snoc_events (w : World) (fs' : FS) (evs : list event) : World :=
  {| fs := fs'; trace := (trace w ++ evs)%list |}.

(** The behaviour of [upload_file_to_s3], case by case. *)
Definition upload_file_to_s3_cases (utcoffset : Z -> Z) (file_path : Path)
    (s3_client : S3Client) (bucket prefix : string) (recordings_dir : Path)
    (w : World) : result bool * World :=
  match lookup file_path (fs w) with
  | None =>
      (Raise (FileNotFoundError (str file_path)),
       snoc_events w (fs w) [EvStat file_path])
  | Some f =>
      match fromtimestamp utcoffset (creation_time f) with
      | None =>
          (Raise (OverflowError "timestamp out of range for platform time_t"),
           snoc_events w (fs w) [EvStat file_path])
      | Some dt =>
          let mp4_path := truediv recordings_dir (gcam_name dt) in
          let key := s3_key_of prefix dt in
          let fs1 := renamed file_path mp4_path f (fs w) in
          let before :=
            [EvStat file_path; EvRename file_path mp4_path;
             EvPrint ("Uploading to S3: s3://" ++ bucket ++ "/" ++ key)] in
          let o := upload_outcome s3_client (snoc_events w fs1 before)
                     (str mp4_path) bucket key in
          let up := EvUpload (str mp4_path) bucket key o in
          match o with
          | None =>
              (Ok true,
               snoc_events w (remove mp4_path fs1)
                 (before ++ [up; EvUnlink mp4_path;
                             EvPrint ("Deleted local file: " ++ gcam_name dt)])%list)
          | Some (UploadS3UploadFailedError m) =>
              (Raise (S3UploadFailedError m),
               snoc_events w fs1 (before ++ [up])%list)
          | Some e =>
              (Ok false,
               snoc_events w fs1
                 (before ++ [up;
                   EvPrint ("S3 upload failed for " ++ name file_path ++ ": "
                            ++ str_exn (exn_of_upload_error e))])%list)
          end
      end
  end.

(** Classification of events. *)
Definition is_stat (e : event) : bool :=
  match e with EvStat _ => true | _ => false end.
Definition is_rename (e : event) : bool :=
  match e with EvRename _ _ => true | _ => false end.
Definition is_upload (e : event) : bool :=
  match e with EvUpload _ _ _ _ => true | _ => false end.
Definition is_unlink (e : event) : bool :=
  match e with EvUnlink _ => true | _ => false end.
Definition is_print (e : event) : bool :=
  match e with EvPrint _ => true | _ => false end.

(** Number of events of a class in a trace. *)
Definition count (c : event -> bool) (evs : list event) : nat :=
  List.length (filter c evs).

(** The upload failed with one of the two exception classes the program
    handles. *)
Definition handled (e : upload_error) : bool :=
  catches_boto (exn_of_upload_error e).

(** Slashes in a string. *)
Fixpoint has_char (c : ascii) (s : string) : bool :=
  match s with
  | EmptyString => false
  | String a r => Ascii.eqb a c || has_char c r
  end.

Definition starts_with_slash (s : string) : bool :=
  match s with
  | EmptyString => false
  | String a _ => Ascii.eqb a "/"
  end.

Fixpoint ends_with_slash (s : string) : bool :=
  match s with
  | EmptyString => false
  | String a r =>
      match r with
      | EmptyString => Ascii.eqb a "/"
      | _ => ends_with_slash r
      end
  end.

Fixpoint has_double_slash (s : string) : bool :=
  match s with
  | EmptyString => false
  | String a r => (Ascii.eqb a "/" && starts_with_slash r) || has_double_slash r
  end.



(** The loop of [main]. *)
Definition main_loop (utcoffset : Z -> Z) (env : Environ) (s3_client : S3Client)
    (files : list Path) : M unit :=
  for_each files (fun mp4_file =>
    Py.bind
      (upload_file_to_s3 utcoffset mp4_file s3_client
         (checked (S3_BUCKET env)) (S3_PREFIX env) RECORDINGS_DIR)
      (fun _ => ret tt)).

(** Order of entries by modification time. *)
Definition mtime_le (a b : Path * File) : Prop :=
  st_mtime (snd a) <= st_mtime (snd b).

Definition has_mtime (t : Z) (e : Path * File) : bool :=
  st_mtime (snd e) =? t.

(** The calls of [upload_file_to_s3] recorded in a trace: each call
    starts with the [stat] of the path it was given; with each call goes
    the number of uploads it made. *)
Fixpoint uploads_before_stat (evs : list event) : nat :=
  match evs with
  | [] => O
  | EvStat _ :: _ => O
  | EvUpload _ _ _ _ :: rest => S (uploads_before_stat rest)
  | _ :: rest => uploads_before_stat rest
  end.

Fixpoint calls (evs : list event) : list (Path * nat) :=
  match evs with
  | [] => []
  | EvStat p :: rest => (p, uploads_before_stat rest) :: calls rest
  | _ :: rest => calls rest
  end.

(** The environment lacks a required variable. *)
Definition missing_config (env : Environ) : bool :=
  negb (truthy (AWS_REGION env)) || negb (truthy (S3_BUCKET env)).

(** The behaviour of [main], case by case. *)
Definition main_cases (utcoffset : Z -> Z)
    (boto3_client : string -> string -> option S3Client)
    (env : Environ) (w : World) : result unit * World :=
  if missing_config env then
    (Raise (RuntimeError "Missing required AWS env variables"), w)
  else
    let region := checked (AWS_REGION env) in
    match boto3_client "s3" region with
    | None =>
        (Raise (BotoCoreError "client"),
         snoc_events w (fs w) [EvClient "s3" region])
    | Some c =>
        match select_files (iterdir RECORDINGS_DIR (fs w)) with
        | [] =>
            (Raise (SystemExit 0),
             snoc_events w (fs w)
               [EvClient "s3" region; EvScan RECORDINGS_DIR;
                EvPrint "Not enough files to process"])
        | files =>
            main_loop utcoffset env c files
              (snoc_events w (fs w)
                 [EvClient "s3" region; EvScan RECORDINGS_DIR])
        end
    end.

End Spec.

(** ** A recordings directory, for examples *)

Module Examples.
Import Pathlib Datetime Fs Py Uploader.

(** Local time is UTC. *)
Definition utc : Z -> Z := fun _ => 0.

Definition a_path : Path := ["recordings"; "a.mp4"].
Definition b_path : Path := ["recordings"; "b.mp4"].
Definition c_path : Path := ["recordings"; "c.mp4"].

(** [a.mp4]: no birth time, status changed one second after the epoch. *)
Definition a_file : File :=
  {| ino := 1; is_file := true; st_mtime := 10000000;
     st_birthtime := None; st_ctime := 1000000 |}.

(** [b.mp4]: born two seconds after the epoch. *)
Definition b_file : File :=
  {| ino := 2; is_file := true; st_mtime := 20000000;
     st_birthtime := Some 2000000; st_ctime := 5000000 |}.

(** [c.mp4]: the recording in progress. *)
Definition c_file : File :=
  {| ino := 3; is_file := true; st_mtime := 30000000;
     st_birthtime := None; st_ctime := 3000000 |}.

Definition notes_file : File :=
  {| ino := 4; is_file := true; st_mtime := 40000000;
     st_birthtime := None; st_ctime := 4000000 |}.

Definition clips_dir : File :=
  {| ino := 5; is_file := false; st_mtime := 50000000;
     st_birthtime := None; st_ctime := 4000000 |}.

Definition a_dt : datetime :=
  {| year := 1970; month := 1; day := 1;
     hour := 0; minute := 0; second := 1; microsecond := 0 |}.

(** Three recordings, a text file, a directory whose name ends in
    [.mp4], and a recording outside the directory. *)
Definition w0 : World :=
  {| fs := [ (c_path, c_file);
             (a_path, a_file);
             (["recordings"; "notes.txt"], notes_file);
             (b_path, b_file);
             (["recordings"; "clips.mp4"], clips_dir);
             (["elsewhere"; "z.mp4"], c_file) ];
     trace := [] |}.

(** A directory with a single recording. *)
Definition w1 : World :=
  {| fs := [ (a_path, a_file); (["recordings"; "notes.txt"], notes_file) ];
     trace := [] |}.

(** A client whose uploads succeed, and one whose uploads are denied. *)
Definition ok_client : S3Client :=
  {| upload_outcome := fun _ _ _ _ => None |}.

Definition denied_client : S3Client :=
  {| upload_outcome := fun _ _ _ _ => Some (UploadClientError "AccessDenied") |}.

Definition boto3_ok (service region : string) : option S3Client :=
  Some ok_client.

(** A complete configuration; its prefix starts with a slash. *)
Definition env0 : Environ :=
  {| env_AWS_REGION := Some "eu-west-1";
     env_S3_BUCKET_NAME := Some "bucket";
     env_S3_PREFIX := Some "/videos/" |}.

(** A configuration whose prefix has two slashes in a row. *)
Definition env2 : Environ :=
  {| env_AWS_REGION := Some "eu-west-1";
     env_S3_BUCKET_NAME := Some "bucket";
     env_S3_PREFIX := Some "cam//side" |}.

End Examples.

(** ** Vocabulary for whole runs *)

Module RunSpec.
Import Pathlib Datetime Fs Py Uploader Spec.

(** A string of [k] slashes. *)
Fixpoint slashes (k : nat) : string :=
  match k with
  | O => ""
  | S k' => String "/" (slashes k')
  end.

(** A client whose uploads all succeed, and one whose uploads all fail
    with an exception the program handles. *)
Definition always_succeeds (c : S3Client) : Prop :=
  forall w fn b k, upload_outcome c w fn b k = None.

Definition always_fails (c : S3Client) : Prop :=
  forall w fn b k,
    exists e, upload_outcome c w fn b k = Some e /\ handled e = true.

(** The local date and time at which the file found at [p] was created. *)
Definition birth_of (utcoffset : Z -> Z) (fs0 : FS) (p : Path)
    : option datetime :=
  match lookup p fs0 with
  | Some f => fromtimestamp utcoffset (creation_time f)
  | None => None
  end.

(** The upload [main] is expected to make for the file found at [p]. *)
Definition expected_upload (utcoffset : Z -> Z) (env : Environ) (fs0 : FS)
    (p : Path) : list event :=
  match birth_of utcoffset fs0 p with
  | Some dt =>
      [EvUpload (str (truediv RECORDINGS_DIR (gcam_name dt)))
         (checked (S3_BUCKET env)) (s3_key_of (S3_PREFIX env) dt) None]
  | None => []
  end.

Definition path_eq_dec : forall p q : Path, {p = q} + {p <> q} :=
  list_eq_dec String.string_dec.



(** The file system without the files at the paths [ps]. *)
Definition without (ps : list Path) (fs0 : FS) : FS :=
  fold_left (fun acc p => remove p acc) ps fs0.

End RunSpec.

(** ** More examples *)

Module RunExamples.
Import Pathlib Datetime Fs Py Uploader Examples.

(** A path that is not on disk. *)
Definition gone_path : Path := ["recordings"; "gone.mp4"].

(** A client whose transfers fail with [S3UploadFailedError]. *)
Definition broken_client : S3Client :=
  {| upload_outcome :=
       fun _ _ _ _ => Some (UploadS3UploadFailedError "Failed to upload") |}.

Definition boto3_denied (service region : string) : option S3Client :=
  Some denied_client.

Definition b_dt : datetime :=
  {| year := 1970; month := 1; day := 1;
     hour := 0; minute := 0; second := 2; microsecond := 0 |}.


(** The example directory, listed in the opposite order. *)
Definition w0_reversed : World :=
  {| fs := rev (fs w0); trace := [] |}.

End RunExamples.

(** ** Vocabulary for the loop of [main] *)

Module LoopSpec.
Import Pathlib Datetime Fs Py Uploader Spec.

(** The world in which the loop of [main] starts: the client has been
    created and the directory scanned. *)
Definition scanned (env : Environ) (w : World) : World :=
  snoc_events w (fs w)
    [EvClient "s3" (checked (AWS_REGION env)); EvScan RECORDINGS_DIR].

(** Some entry of the file system is the file with inode number [i]. *)
Definition on_disk (i : nat) (fs0 : FS) : bool :=
  existsb (fun e => Nat.eqb (ino (snd e)) i) fs0.

(** The local file names given to [upload_file], in order. *)
Definition uploaded_names (evs : list event) : list string :=
  flat_map (fun e => match e with
                     | EvUpload fn _ _ _ => [fn]
                     | _ => []
                     end) evs.

End LoopSpec.

(** ** A recordings directory in which a new name is already taken *)

Module TakenNames.
Import Pathlib Datetime Fs Py Uploader Examples RunExamples.

Definition leftover_path : Path := ["recordings"; "gcam_01011970_000001.mp4"].

(** A recording born 1.2 seconds after the epoch.  It bears the name made
    from its birth time: an earlier run renamed it, and its upload
    failed. *)
Definition leftover_file : File :=
  {| ino := 7; is_file := true; st_mtime := 15000000;
     st_birthtime := Some 1200000; st_ctime := 16000000 |}.

(** A recording born in the same second, still under its first name. *)
Definition fresh_file : File :=
  {| ino := 8; is_file := true; st_mtime := 10000000;
     st_birthtime := Some 1700000; st_ctime := 1700000 |}.

Definition w_leftover : World :=
  {| fs := [ (leftover_path, leftover_file);
             (a_path, fresh_file);
             (c_path, c_file) ];
     trace := [] |}.

Definition boto3_broken (service region : string) : option S3Client :=
  Some broken_client.

End TakenNames.

(** ** Facts about the bounded checks and about paths *)

Lemma all_from_spec n : forall lo P,
  all_from n lo P = true ->
  forall k, lo <= k < lo + Z.of_nat n -> P k = true.
Proof.
  induction n as [|n IH]; intros lo P H k Hk.
  - lia.
  - simpl in H. destruct (P lo) eqn:Hlo; [|discriminate].
    destruct (Z.eq_dec k lo) as [->|Hne]; [assumption|].
    apply (IH (lo + 1) P H). lia.
Qed.

Lemma all_below_spec n P :
  all_below n P = true -> forall k, 0 <= k < n -> P k = true.
Proof.
  intros H k Hk. apply (all_from_spec _ _ _ H). lia.
Qed.

Module PathlibFacts.
Import Pathlib.

Lemma path_eqb_eq p q : path_eqb p q = true <-> p = q.
Proof.
  revert q; induction p as [|a p IH]; destruct q as [|b q]; simpl;
    try (split; [discriminate | discriminate]); try tauto.
  rewrite andb_true_iff, String.eqb_eq, IH.
  split; [intros [-> ->]; reflexivity | intros H; inversion H; auto].
Qed.

Lemma path_eqb_refl p : path_eqb p p = true.
Proof. apply path_eqb_eq; reflexivity. Qed.

Lemma path_eqb_neq p q : path_eqb p q = false <-> p <> q.
Proof.
  split.
  - intros H E. apply path_eqb_eq in E. congruence.
  - intros H. destruct (path_eqb p q) eqn:E; [|reflexivity].
    apply path_eqb_eq in E. contradiction.
Qed.

Lemma path_eqb_sym p q : path_eqb p q = path_eqb q p.
Proof.
  destruct (path_eqb q p) eqn:E.
  - apply path_eqb_eq in E. subst. apply path_eqb_refl.
  - apply path_eqb_neq in E. apply path_eqb_neq. congruence.
Qed.

Lemma name_truediv p s : name (truediv p s) = s.
Proof. unfold name, truediv. apply last_last. Qed.

Lemma parent_truediv p s : parent (truediv p s) = p.
Proof. unfold parent, truediv. apply removelast_last. Qed.

End PathlibFacts.

(** ** Facts about dates and their formatting *)

Module DatetimeFacts.
Import Datetime Spec.

Lemma doy_of_doe_range doe :
  0 <= doe < 146097 -> 0 <= doy_of_doe doe <= 365.
Proof.
  intros H. unfold doy_of_doe, yoe_of_doe.
  Z.div_mod_to_equations; lia.
Qed.

Lemma month_of_doe_range doe :
  0 <= doe < 146097 -> 1 <= month_of_doe doe <= 12.
Proof.
  intros H. pose proof (doy_of_doe_range doe H) as Hd.
  unfold month_of_doe, mp_of_doe.
  remember (doy_of_doe doe) as doy.
  destruct ((5 * doy + 2) / 153 <? 10) eqn:E;
    [apply Z.ltb_lt in E | apply Z.ltb_ge in E];
    Z.div_mod_to_equations; lia.
Qed.

Lemma day_of_doe_range doe :
  0 <= doe < 146097 -> 1 <= day_of_doe doe <= 31.
Proof.
  intros H. pose proof (doy_of_doe_range doe H) as Hd.
  unfold day_of_doe, mp_of_doe.
  remember (doy_of_doe doe) as doy.
  Z.div_mod_to_equations; lia.
Qed.

Lemma fromtimestamp_valid utcoffset ts dt :
  fromtimestamp utcoffset ts = Some dt -> valid dt.
Proof.
  unfold fromtimestamp, civil_from_days.
  set (loc := ts / 1000000 + utcoffset (ts / 1000000)).
  set (doe := (loc / 86400 + 719468) mod 146097).
  assert (Hdoe : 0 <= doe < 146097) by (apply Z.mod_pos_bound; lia).
  pose proof (month_of_doe_range doe Hdoe) as Hm.
  pose proof (day_of_doe_range doe Hdoe) as Hd.
  set (y := if month_of_doe doe <=? 2 then _ else _).
  destruct ((MINYEAR <=? y) && (y <=? MAXYEAR)) eqn:Hy; [|discriminate].
  apply andb_true_iff in Hy. destruct Hy as [Hy1 Hy2].
  apply Z.leb_le in Hy1, Hy2.
  intros E. inversion E; subst dt; clear E.
  unfold valid; simpl.
  assert (Hs : 0 <= loc mod 86400 < 86400) by (apply Z.mod_pos_bound; lia).
  assert (Hu : 0 <= ts mod 1000000 < 1000000) by (apply Z.mod_pos_bound; lia).
  repeat split; try lia; try (Z.div_mod_to_equations; lia).
Qed.

Lemma zpad2_dd n : 0 <= n <= 99 -> zpad 2 n = dd n.
Proof.
  intros H.
  apply String.eqb_eq.
  apply (all_below_spec 100 (fun k => String.eqb (zpad 2 k) (dd k))).
  - vm_compute. reflexivity.
  - lia.
Qed.

Lemma zpad4_dddd n : 0 <= n <= 9999 -> zpad 4 n = dddd n.
Proof.
  intros H.
  apply String.eqb_eq.
  apply (all_below_spec 10000 (fun k => String.eqb (zpad 4 k) (dddd k))).
  - vm_compute. reflexivity.
  - lia.
Qed.

Lemma dd_digits n : 0 <= n <= 99 -> all_digits (dd n) = true.
Proof.
  intros H.
  apply (all_below_spec 100 (fun k => all_digits (dd k))).
  - vm_compute. reflexivity.
  - lia.
Qed.

Lemma dddd_digits n : 0 <= n <= 9999 -> all_digits (dddd n) = true.
Proof.
  intros H.
  apply (all_below_spec 10000 (fun k => all_digits (dddd k))).
  - vm_compute. reflexivity.
  - lia.
Qed.

(** The file name format, conversion by conversion. *)
Lemma strftime_gcam dt :
  valid dt -> strftime "gcam_%d%m%Y_%H%M%S.mp4" dt = gcam_name dt.
Proof.
  intros (Hy & Hm & Hd & Hh & Hmi & Hs & _).
  unfold MINYEAR, MAXYEAR in Hy.
  cbn [strftime Ascii.eqb Bool.eqb directive].
  unfold gcam_name.
  rewrite !zpad2_dd by lia. rewrite zpad4_dddd by lia.
  reflexivity.
Qed.

Lemma strftime_date dt :
  valid dt -> strftime "%Y-%m-%d" dt = date_name dt.
Proof.
  intros (Hy & Hm & Hd & _).
  unfold MINYEAR, MAXYEAR in Hy.
  cbn [strftime Ascii.eqb Bool.eqb directive].
  unfold date_name.
  rewrite !zpad2_dd by lia. rewrite zpad4_dddd by lia.
  reflexivity.
Qed.

End DatetimeFacts.

(** ** Facts about strings and slashes *)

Module StringFacts.
Import Datetime DatetimeFacts Uploader Spec.

Lemma append_assoc (a b c : string) : (a ++ b) ++ c = a ++ (b ++ c).
Proof. induction a as [|x a IH]; simpl; [reflexivity | rewrite IH; reflexivity]. Qed.

Lemma append_nil_r (a : string) : a ++ "" = a.
Proof. induction a as [|x a IH]; simpl; [reflexivity | rewrite IH; reflexivity]. Qed.

Lemma length_append (a b : string) :
  String.length (a ++ b) = (String.length a + String.length b)%nat.
Proof. induction a as [|x a IH]; simpl; [reflexivity | rewrite IH; reflexivity]. Qed.

Lemma has_char_app c a b : has_char c (a ++ b) = has_char c a || has_char c b.
Proof.
  induction a as [|x a IH]; simpl; [reflexivity|].
  rewrite IH. apply orb_assoc.
Qed.

Lemma all_digits_app a b :
  all_digits (a ++ b) = all_digits a && all_digits b.
Proof.
  induction a as [|x a IH]; simpl; [reflexivity|].
  rewrite IH. apply andb_assoc.
Qed.

Lemma digits_no_slash s : all_digits s = true -> has_char "/" s = false.
Proof.
  induction s as [|x s IH]; simpl; [reflexivity|].
  intros H. apply andb_true_iff in H. destruct H as [Hx Hs].
  rewrite (IH Hs), orb_false_r.
  destruct (Ascii.eqb x "/") eqn:E; [|reflexivity].
  apply Ascii.eqb_eq in E. subst x. discriminate Hx.
Qed.

Lemma no_slash_starts s : has_char "/" s = false -> starts_with_slash s = false.
Proof.
  destruct s as [|x s]; simpl; [reflexivity|].
  intros H. apply orb_false_iff in H. tauto.
Qed.

Lemma no_slash_ends s : has_char "/" s = false -> ends_with_slash s = false.
Proof.
  induction s as [|x s IH]; simpl; [reflexivity|].
  intros H. apply orb_false_iff in H. destruct H as [Hx Hs].
  destruct s; [assumption | apply IH; assumption].
Qed.

Lemma no_slash_double s : has_char "/" s = false -> has_double_slash s = false.
Proof.
  induction s as [|x s IH]; simpl; [reflexivity|].
  intros H. apply orb_false_iff in H. destruct H as [Hx Hs].
  rewrite Hx, (IH Hs). reflexivity.
Qed.

Lemma starts_app a b :
  starts_with_slash (a ++ b) =
  match a with EmptyString => starts_with_slash b | _ => starts_with_slash a end.
Proof. destruct a; reflexivity. Qed.

Lemma ends_app_cons a x b :
  ends_with_slash (a ++ String x b) = ends_with_slash (String x b).
Proof.
  induction a as [|y a IH]; [reflexivity|].
  change ((String y a) ++ String x b) with (String y (a ++ String x b)).
  rewrite <- IH.
  destruct (a ++ String x b) eqn:E.
  - destruct a; discriminate E.
  - reflexivity.
Qed.

Lemma double_slash_app a b :
  has_double_slash (a ++ b) =
  has_double_slash a || has_double_slash b
    || (ends_with_slash a && starts_with_slash b).
Proof.
  induction a as [|x a IH]; [simpl; rewrite orb_false_r; reflexivity|].
  change ((String x a) ++ b) with (String x (a ++ b)).
  cbn [has_double_slash]. rewrite IH, starts_app.
  destruct a as [|y a].
  - simpl. destruct (Ascii.eqb x "/"), (starts_with_slash b),
      (has_double_slash b); reflexivity.
  - cbn [ends_with_slash].
    destruct (Ascii.eqb x "/" && starts_with_slash (String y a)),
      (has_double_slash (String y a)), (has_double_slash b),
      (ends_with_slash (String y a) && starts_with_slash b); reflexivity.
Qed.

Lemma rstrip_no_trailing_slash s : ends_with_slash (rstrip "/" s) = false.
Proof.
  induction s as [|x s IH]; [reflexivity|].
  cbn [rstrip].
  destruct (rstrip "/" s) as [|y r] eqn:E.
  - destruct (Ascii.eqb x "/") eqn:Ex; [reflexivity|]. simpl. exact Ex.
  - cbn [ends_with_slash]. exact IH.
Qed.

Lemma dd_no_slash n : 0 <= n <= 99 -> has_char "/" (dd n) = false.
Proof. intros H. apply digits_no_slash, dd_digits, H. Qed.

Lemma dddd_no_slash n : 0 <= n <= 9999 -> has_char "/" (dddd n) = false.
Proof. intros H. apply digits_no_slash, dddd_digits, H. Qed.

Lemma gcam_name_no_slash dt : valid dt -> has_char "/" (gcam_name dt) = false.
Proof.
  intros (Hy & Hm & Hd & Hh & Hmi & Hs & _).
  unfold MINYEAR, MAXYEAR in Hy. unfold gcam_name.
  rewrite !has_char_app, !dd_no_slash, dddd_no_slash by lia.
  reflexivity.
Qed.

Lemma date_name_no_slash dt : valid dt -> has_char "/" (date_name dt) = false.
Proof.
  intros (Hy & Hm & Hd & _).
  unfold MINYEAR, MAXYEAR in Hy. unfold date_name.
  rewrite !has_char_app, !dd_no_slash, dddd_no_slash by lia.
  reflexivity.
Qed.

Lemma gcam_name_length dt : String.length (gcam_name dt) = 24%nat.
Proof. reflexivity. Qed.

(** The dated part of a key has a single slash, between the folder and
    the name. *)
Lemma dated_part_slashes dt :
  valid dt ->
  let tail := date_name dt ++ "/" ++ gcam_name dt in
  starts_with_slash tail = false /\ has_double_slash tail = false.
Proof.
  intros Hv tail. subst tail.
  pose proof (gcam_name_no_slash dt Hv) as Hn.
  pose proof (date_name_no_slash dt Hv) as Hd.
  split.
  - rewrite starts_app.
    destruct (date_name dt) eqn:E; [discriminate E|].
    apply no_slash_starts, Hd.
  - rewrite double_slash_app.
    rewrite (no_slash_double _ Hd), (no_slash_ends _ Hd).
    change ("/" ++ gcam_name dt) with (String "/" (gcam_name dt)).
    cbn [has_double_slash Ascii.eqb Bool.eqb andb orb].
    rewrite (no_slash_starts _ Hn), (no_slash_double _ Hn). reflexivity.
Qed.

Lemma s3_key_slashes prefix dt :
  valid dt ->
  starts_with_slash (s3_key_of prefix dt) = starts_with_slash prefix /\
  has_double_slash (s3_key_of prefix dt)
    = has_double_slash prefix || ends_with_slash prefix.
Proof.
  intros Hv. destruct (dated_part_slashes dt Hv) as [Hs Hd].
  unfold s3_key_of. destruct prefix as [|x p].
  - cbn [truthy_str]. rewrite Hs, Hd. split; reflexivity.
  - cbn [truthy_str]. split.
    + reflexivity.
    + rewrite double_slash_app.
      change ("/" ++ date_name dt ++ "/" ++ gcam_name dt)
        with (String "/" (date_name dt ++ "/" ++ gcam_name dt)).
      cbn [has_double_slash starts_with_slash Ascii.eqb Bool.eqb andb].
      rewrite Hs, Hd. cbn [orb].
      rewrite orb_false_r, andb_true_r. reflexivity.
Qed.

End StringFacts.

(** ** Facts about the file system *)

Module FsFacts.
Import Pathlib PathlibFacts Fs Spec.

Lemma lookup_remove_same p fs0 : lookup p (remove p fs0) = None.
Proof.
  induction fs0 as [|[q f] rest IH]; simpl; [reflexivity|].
  destruct (path_eqb q p) eqn:E; simpl; [assumption|].
  rewrite E. assumption.
Qed.

Lemma lookup_remove_other p q fs0 :
  p <> q -> lookup p (remove q fs0) = lookup p fs0.
Proof.
  intros Hne. induction fs0 as [|[r f] rest IH]; simpl; [reflexivity|].
  destruct (path_eqb r q) eqn:E; simpl.
  - apply path_eqb_eq in E. subst r.
    destruct (path_eqb q p) eqn:E2; [|assumption].
    apply path_eqb_eq in E2. congruence.
  - rewrite IH. reflexivity.
Qed.

Lemma lookup_In p f fs0 : lookup p fs0 = Some f -> In (p, f) fs0.
Proof.
  induction fs0 as [|[q g] rest IH]; simpl; [discriminate|].
  destruct (path_eqb q p) eqn:E.
  - apply path_eqb_eq in E. intros H; inversion H; subst. left; reflexivity.
  - intros H. right. apply IH, H.
Qed.

Lemma In_lookup p f fs0 :
  NoDup (map fst fs0) -> In (p, f) fs0 -> lookup p fs0 = Some f.
Proof.
  induction fs0 as [|[q g] rest IH]; simpl; [tauto|].
  intros Hnd [H|H].
  - inversion H; subst. rewrite path_eqb_refl. reflexivity.
  - inversion Hnd as [|? ? Hnotin Hnd']; subst.
    destruct (path_eqb q p) eqn:E.
    + apply path_eqb_eq in E. subst q. exfalso. apply Hnotin.
      apply (in_map fst) in H. exact H.
    + apply IH; assumption.
Qed.

Lemma lookup_renamed_dst src dst f fs0 :
  lookup src fs0 = Some f -> lookup dst (renamed src dst f fs0) = Some f.
Proof.
  intros H. unfold renamed.
  destruct (path_eqb src dst) eqn:E.
  - apply path_eqb_eq in E. subst. assumption.
  - simpl. rewrite path_eqb_refl. reflexivity.
Qed.

Lemma lookup_renamed_src src dst f fs0 :
  src <> dst -> lookup src (renamed src dst f fs0) = None.
Proof.
  intros Hne. unfold renamed.
  apply path_eqb_neq in Hne. rewrite Hne. simpl.
  rewrite path_eqb_sym, Hne.
  apply path_eqb_neq in Hne.
  rewrite lookup_remove_other by congruence.
  apply lookup_remove_same.
Qed.

Lemma lookup_renamed_other p src dst f fs0 :
  p <> src -> p <> dst ->
  lookup p (renamed src dst f fs0) = lookup p fs0.
Proof.
  intros H1 H2. unfold renamed.
  destruct (path_eqb src dst); [reflexivity|]. simpl.
  assert (E : path_eqb dst p = false) by (apply path_eqb_neq; congruence).
  rewrite E. rewrite !lookup_remove_other by assumption. reflexivity.
Qed.

Lemma rename_renamed src dst f fs0 :
  lookup src fs0 = Some f ->
  Fs.rename src dst fs0 = Some (renamed src dst f fs0).
Proof.
  intros H. unfold Fs.rename, renamed. rewrite H.
  destruct (path_eqb src dst); reflexivity.
Qed.

End FsFacts.

(** ** The behaviour of [upload_file_to_s3] *)

Module UploadFacts.
Import Pathlib PathlibFacts Datetime DatetimeFacts Fs FsFacts Py Uploader Spec.

Lemma upload_file_to_s3_run utcoffset file_path c bucket prefix dir w :
  upload_file_to_s3 utcoffset file_path c bucket prefix dir w =
  upload_file_to_s3_cases utcoffset file_path c bucket prefix dir w.
Proof.
  unfold upload_file_to_s3, upload_file_to_s3_cases, get_birth_datetime,
    stat, print, emit, try_except, snoc_events, bind.
  cbn -[strftime fromtimestamp String.append str truediv name].
  destruct (lookup file_path (fs w)) as [f|] eqn:Hl;
    cbn -[strftime fromtimestamp String.append str truediv name];
    [|reflexivity].
  fold (creation_time f).
  destruct (fromtimestamp utcoffset (creation_time f)) as [dt|] eqn:Hdt;
    cbn -[strftime String.append str truediv name]; [|reflexivity].
  pose proof (fromtimestamp_valid _ _ _ Hdt) as Hv.
  rewrite (strftime_gcam dt Hv), (strftime_date dt Hv).
  unfold Py.rename, Py.unlink, print, emit, upload_file.
  cbn -[String.append str truediv name].
  rewrite (rename_renamed _ (truediv dir (gcam_name dt)) _ _ Hl).
  cbn -[String.append str truediv name].
  fold (s3_key_of prefix dt).
  rewrite <- !app_assoc.
  cbn -[String.append str truediv name].
  match goal with
  | |- context [upload_outcome c ?w2 ?a ?b ?k] =>
      destruct (upload_outcome c w2 a b k) as [[m|m|m]|] eqn:Ho
  end; cbn -[String.append str truediv name]; rewrite <- ?app_assoc;
    try reflexivity.
  unfold Fs.unlink.
  rewrite (lookup_renamed_dst _ _ _ _ Hl).
  cbn -[String.append str truediv name].
  rewrite <- !app_assoc. reflexivity.
Qed.

End UploadFacts.

(** ** Properties of [upload_file_to_s3] *)

Module UploadProps.
Import Pathlib PathlibFacts Datetime DatetimeFacts StringFacts Fs FsFacts Py
  Uploader Spec UploadFacts.

Ltac in_cases H :=
  cbn -[String.append str truediv name] in H;
  repeat match type of H with
         | _ \/ _ => destruct H as [H|H]
         | False => contradiction
         | _ = _ => first [discriminate H | (inversion H; subst; clear H)]
         end.

Ltac run_cases f dt o Hl Hdt Ho :=
  rewrite upload_file_to_s3_run; unfold upload_file_to_s3_cases, snoc_events;
  match goal with
  | |- context [lookup ?p (fs ?w)] =>
      destruct (lookup p (fs w)) as [f|] eqn:Hl
  end;
  [ match goal with
    | |- context [fromtimestamp ?u ?t] =>
        destruct (fromtimestamp u t) as [dt|] eqn:Hdt
    end;
    [ cbv zeta;
      match goal with
      | |- context [upload_outcome ?c ?w2 ?a ?b ?k] =>
          destruct (upload_outcome c w2 a b k) as [[o|o|o]|] eqn:Ho
      end
    | ]
  | ].

(** The [unlink] of the function comes only after the upload has
    succeeded.  When the upload raises [BotoCoreError] or [ClientError],
    the function returns [False], it unlinks nothing, and the file it was
    given is still on disk, under its new name.  When a file is unlinked,
    the unlink comes directly after a successful upload of that very
    file, it is the only one, and the function returns [True].  This
    speaks of the file the call was given; what the rename does to a file
    that already bears the new name is the matter of
    [TakenNameProps]. *)
Theorem upload_deletes_only_after_success :
  forall utcoffset file_path s3_client bucket prefix recordings_dir w,
    let out := upload_file_to_s3 utcoffset file_path s3_client bucket prefix
                 recordings_dir w in
    exists evs,
      trace (snd out) = (trace w ++ evs)%list /\
      (forall fn b k e,
          In (EvUpload fn b k (Some e)) evs -> handled e = true ->
          fst out = Ok false /\
          (forall p, ~ In (EvUnlink p) evs) /\
          (forall f, lookup file_path (fs w) = Some f ->
             exists dt,
               fromtimestamp utcoffset (creation_time f) = Some dt /\
               fs (snd out) =
                 renamed file_path (truediv recordings_dir (gcam_name dt)) f (fs w) /\
               lookup (truediv recordings_dir (gcam_name dt)) (fs (snd out))
                 = Some f)) /\
      (forall p,
          In (EvUnlink p) evs ->
          fst out = Ok true /\
          exists pre b k post,
            evs = (pre ++ EvUpload (str p) b k None :: EvUnlink p :: post)%list /\
            count is_unlink pre = O /\ count is_unlink post = O /\
            count is_upload pre = O).
Proof.
  intros utcoffset file_path c bucket prefix dir w out. subst out.
  run_cases f dt o Hl Hdt Ho; cbn [fst snd fs trace];
    (eexists; split; [reflexivity|]); split.
  all: try (intros fn b k e Hin Hh; in_cases Hin; fail).
  all: try (intros p Hin; in_cases Hin; fail).
  - (* BotoCoreError *)
    intros fn b k e Hin Hh. in_cases Hin.
    split; [reflexivity|]. split.
    + intros p Hp. in_cases Hp.
    + intros f' Hf'. inversion Hf'; subst f'. exists dt.
      repeat split; [assumption|]. apply lookup_renamed_dst; assumption.
  - (* ClientError *)
    intros fn b k e Hin Hh. in_cases Hin.
    split; [reflexivity|]. split.
    + intros p Hp. in_cases Hp.
    + intros f' Hf'. inversion Hf'; subst f'. exists dt.
      repeat split; [assumption|]. apply lookup_renamed_dst; assumption.
  - (* S3UploadFailedError *)
    intros fn b k e Hin Hh. in_cases Hin. discriminate Hh.
  - (* success *)
    intros p Hin. in_cases Hin.
    split; [reflexivity|].
    eexists [_; _; _], _, _, [_].
    cbn -[String.append str truediv name].
    repeat split; reflexivity.
Qed.

(** C3.  The new local name and the object name of an uploaded file come
    from its creation time: the birth time when [stat] reports one, the
    status-change time otherwise.  The name is the local date and time
    of that instant, written [gcam_DDMMYYYY_HHMMSS.mp4]: the file is
    renamed to it in the recordings directory and the object key ends
    with it. *)
Theorem name_from_creation_time :
  forall utcoffset file_path s3_client bucket prefix recordings_dir w f dt,
    lookup file_path (fs w) = Some f ->
    fromtimestamp utcoffset
      (match st_birthtime f with Some b => b | None => st_ctime f end)
      = Some dt ->
    let out := upload_file_to_s3 utcoffset file_path s3_client bucket prefix
                 recordings_dir w in
    let new_name := strftime "gcam_%d%m%Y_%H%M%S.mp4" dt in
    new_name =
      "gcam_" ++ dd (day dt) ++ dd (month dt) ++ dddd (year dt) ++ "_"
        ++ dd (hour dt) ++ dd (minute dt) ++ dd (second dt) ++ ".mp4" /\
    all_digits (dd (day dt) ++ dd (month dt) ++ dddd (year dt)
                  ++ dd (hour dt) ++ dd (minute dt) ++ dd (second dt)) = true /\
    String.length new_name = 24%nat /\
    has_char "/" new_name = false /\
    name (truediv recordings_dir new_name) = new_name /\
    exists line folder o tail,
      trace (snd out) =
        (trace w ++
          [EvStat file_path;
           EvRename file_path (truediv recordings_dir new_name);
           EvPrint line;
           EvUpload (str (truediv recordings_dir new_name)) bucket
             (folder ++ "/" ++ new_name) o] ++ tail)%list.
Proof.
  intros utcoffset file_path c bucket prefix dir w f dt Hl Hdt out new_name.
  fold (creation_time f) in Hdt.
  pose proof (fromtimestamp_valid _ _ _ Hdt) as Hv.
  subst new_name. rewrite (strftime_gcam dt Hv).
  destruct Hv as (Hy & Hm & Hd & Hh & Hmi & Hs & Hu).
  assert (Hv : valid dt) by (repeat split; tauto).
  unfold MINYEAR, MAXYEAR in Hy.
  split; [reflexivity|].
  split.
  { rewrite !all_digits_app, !dd_digits, dddd_digits by lia. reflexivity. }
  split; [reflexivity|].
  split; [apply gcam_name_no_slash; assumption|].
  split; [apply name_truediv|].
  subst out. rewrite upload_file_to_s3_run.
  unfold upload_file_to_s3_cases, snoc_events. rewrite Hl, Hdt. cbv zeta.
  exists ("Uploading to S3: s3://" ++ bucket ++ "/" ++ s3_key_of prefix dt).
  exists (if truthy_str prefix then prefix ++ "/" ++ date_name dt
          else date_name dt).
  assert (Hkey : s3_key_of prefix dt =
            (if truthy_str prefix then prefix ++ "/" ++ date_name dt
             else date_name dt) ++ "/" ++ gcam_name dt).
  { unfold s3_key_of. destruct (truthy_str prefix); [|reflexivity].
    rewrite !append_assoc. reflexivity. }
  rewrite <- Hkey.
  match goal with
  | |- context [upload_outcome c ?w2 ?a ?b ?k] =>
      destruct (upload_outcome c w2 a b k) as [[m|m|m]|] eqn:Ho
  end; cbn [fst snd trace]; eexists; eexists; reflexivity.
Qed.

(** C4, as amended.  Here the prefix is the value of [S3_PREFIX] as the
    program uses it: the environment variable, empty when unset, without
    its trailing slashes.  The key is [<prefix>/<YYYY-MM-DD>/<name>] when
    this prefix is not empty and [<YYYY-MM-DD>/<name>] when it is,
    folder and name coming from the same creation time.  The program
    adds no leading and no doubled slash of its own: the key starts with
    a slash exactly when this stripped prefix does, and has two slashes
    in a row exactly when this stripped prefix has; when the stripped
    prefix is empty the key has neither.  The stripped prefix never ends
    with a slash. *)
Theorem key_under_dated_prefix :
  forall utcoffset file_path s3_client bucket env recordings_dir w f dt,
    lookup file_path (fs w) = Some f ->
    fromtimestamp utcoffset (creation_time f) = Some dt ->
    let prefix := S3_PREFIX env in
    let out := upload_file_to_s3 utcoffset file_path s3_client bucket prefix
                 recordings_dir w in
    let new_name := strftime "gcam_%d%m%Y_%H%M%S.mp4" dt in
    let date_folder := strftime "%Y-%m-%d" dt in
    date_folder = dddd (year dt) ++ "-" ++ dd (month dt) ++ "-" ++ dd (day dt) /\
    exists key fn o pre post,
      trace (snd out) = (trace w ++ pre ++ EvUpload fn bucket key o :: post)%list /\
      count is_upload pre = O /\ count is_upload post = O /\
      (prefix = "" -> key = date_folder ++ "/" ++ new_name) /\
      (prefix <> "" -> key = prefix ++ "/" ++ date_folder ++ "/" ++ new_name) /\
      starts_with_slash key = starts_with_slash prefix /\
      has_double_slash key = has_double_slash prefix /\
      (prefix = "" ->
       starts_with_slash key = false /\ has_double_slash key = false) /\
      prefix = rstrip "/" (getenv_default (env_S3_PREFIX env) "") /\
      ends_with_slash prefix = false.
Proof.
  intros utcoffset file_path c bucket env dir w f dt Hl Hdt prefix out
    new_name date_folder.
  pose proof (fromtimestamp_valid _ _ _ Hdt) as Hv.
  subst new_name date_folder.
  rewrite (strftime_gcam dt Hv), (strftime_date dt Hv).
  split; [reflexivity|].
  destruct (s3_key_slashes prefix dt Hv) as [Hstart Hdouble].
  assert (Hend : ends_with_slash prefix = false)
    by apply rstrip_no_trailing_slash.
  rewrite Hend, orb_false_r in Hdouble.
  exists (s3_key_of prefix dt).
  subst out. rewrite upload_file_to_s3_run.
  unfold upload_file_to_s3_cases, snoc_events. rewrite Hl, Hdt. cbv zeta.
  assert (Hk1 : prefix = "" ->
            s3_key_of prefix dt = date_name dt ++ "/" ++ gcam_name dt).
  { intros E. unfold s3_key_of. rewrite E. reflexivity. }
  assert (Hk2 : prefix <> "" ->
            s3_key_of prefix dt
              = prefix ++ "/" ++ date_name dt ++ "/" ++ gcam_name dt).
  { intros E. unfold s3_key_of. destruct prefix; [congruence | reflexivity]. }
  assert (Hk3 : prefix = "" ->
            starts_with_slash (s3_key_of prefix dt) = false /\
            has_double_slash (s3_key_of prefix dt) = false).
  { intros E. rewrite Hstart, Hdouble, E. split; reflexivity. }
  match goal with
  | |- context [upload_outcome c ?w2 ?a ?b ?k] =>
      destruct (upload_outcome c w2 a b k) as [[m|m|m]|] eqn:Ho
  end; cbn [fst snd trace];
    eexists; eexists; eexists [_; _; _]; eexists;
    (split; [cbn [app]; reflexivity|]);
    repeat split; try assumption; try reflexivity;
    first [apply Hk3; assumption | idtac].
Qed.

(** C10.  A failed upload leaves the rename in place.  When the upload
    fails with [BotoCoreError] or [ClientError], the file given to the
    call is on disk in the recordings directory under its new name
    [gcam_DDMMYYYY_HHMMSS.mp4] and no longer under its old one; the
    rename came before the upload, and after the failure the call only
    prints: it renames nothing back. *)
Theorem failed_upload_keeps_new_name :
  forall utcoffset file_path s3_client bucket prefix recordings_dir w,
    let out := upload_file_to_s3 utcoffset file_path s3_client bucket prefix
                 recordings_dir w in
    exists evs,
      trace (snd out) = (trace w ++ evs)%list /\
      (forall fn b k e,
          In (EvUpload fn b k (Some e)) evs -> handled e = true ->
          exists f dt line1 line2,
            lookup file_path (fs w) = Some f /\
            fromtimestamp utcoffset (creation_time f) = Some dt /\
            let new_path := truediv recordings_dir (gcam_name dt) in
            fst out = Ok false /\
            lookup new_path (fs (snd out)) = Some f /\
            (file_path <> new_path -> lookup file_path (fs (snd out)) = None) /\
            parent new_path = recordings_dir /\
            name new_path = strftime "gcam_%d%m%Y_%H%M%S.mp4" dt /\
            evs = [EvStat file_path; EvRename file_path new_path;
                   EvPrint line1; EvUpload fn b k (Some e); EvPrint line2]).
Proof.
  intros utcoffset file_path c bucket prefix dir w out. subst out.
  run_cases f dt o Hl Hdt Ho; cbn [fst snd fs trace];
    (eexists; split; [reflexivity|]);
    intros fn b k e Hin Hh; in_cases Hin; try discriminate Hh.
  - pose proof (fromtimestamp_valid _ _ _ Hdt) as Hv.
    exists f, dt. eexists. eexists.
    split; [first [reflexivity | assumption]|].
    split; [first [reflexivity | assumption]|]. cbv zeta.
    split; [reflexivity|].
    split; [apply lookup_renamed_dst; assumption|].
    split; [intros Hne; apply lookup_renamed_src; assumption|].
    split; [apply parent_truediv|].
    split; [rewrite name_truediv; symmetry; apply strftime_gcam; assumption|].
    reflexivity.
  - pose proof (fromtimestamp_valid _ _ _ Hdt) as Hv.
    exists f, dt. eexists. eexists.
    split; [first [reflexivity | assumption]|].
    split; [first [reflexivity | assumption]|]. cbv zeta.
    split; [reflexivity|].
    split; [apply lookup_renamed_dst; assumption|].
    split; [intros Hne; apply lookup_renamed_src; assumption|].
    split; [apply parent_truediv|].
    split; [rewrite name_truediv; symmetry; apply strftime_gcam; assumption|].
    reflexivity.
Qed.


End UploadProps.

(** ** Facts about the selection of files *)

Module SelectFacts.
Import Pathlib PathlibFacts Fs Py Uploader Spec.

Lemma insert_by_mtime_perm x l : Permutation (insert_by_mtime x l) (x :: l).
Proof.
  induction l as [|y rest IH]; simpl; [apply Permutation_refl|].
  destruct (st_mtime (snd x) <=? st_mtime (snd y)).
  - apply Permutation_refl.
  - eapply Permutation_trans; [apply perm_skip, IH | apply perm_swap].
Qed.

Lemma sorted_by_mtime_perm l : Permutation (sorted_by_mtime l) l.
Proof.
  induction l as [|x rest IH]; simpl; [apply Permutation_refl|].
  eapply Permutation_trans; [apply insert_by_mtime_perm|].
  apply perm_skip, IH.
Qed.

Lemma insert_by_mtime_sorted x l :
  Sorted mtime_le l -> Sorted mtime_le (insert_by_mtime x l).
Proof.
  induction l as [|y rest IH]; simpl; intros Hs.
  - constructor; constructor.
  - destruct (st_mtime (snd x) <=? st_mtime (snd y)) eqn:E.
    + apply Z.leb_le in E. constructor; [assumption|].
      constructor. exact E.
    + apply Z.leb_gt in E.
      inversion Hs as [|? ? Hrest Hhd]; subst.
      constructor; [apply IH; assumption|].
      destruct rest as [|z rest']; simpl.
      * constructor. unfold mtime_le. lia.
      * destruct (st_mtime (snd x) <=? st_mtime (snd z)).
        -- constructor. unfold mtime_le. lia.
        -- inversion Hhd; subst. constructor. assumption.
Qed.

Lemma sorted_by_mtime_sorted l : Sorted mtime_le (sorted_by_mtime l).
Proof.
  induction l as [|x rest IH]; simpl; [constructor|].
  apply insert_by_mtime_sorted, IH.
Qed.

Lemma mtime_le_trans : Relations_1.Transitive mtime_le.
Proof. intros a b c. unfold mtime_le. lia. Qed.

Lemma sorted_by_mtime_strongly_sorted l :
  StronglySorted mtime_le (sorted_by_mtime l).
Proof.
  apply Sorted_StronglySorted; [exact mtime_le_trans|].
  apply sorted_by_mtime_sorted.
Qed.

(** Stability: entries with the same modification time keep the order
    of the listing. *)
Lemma insert_by_mtime_stable t x l :
  filter (has_mtime t) (insert_by_mtime x l) = filter (has_mtime t) (x :: l).
Proof.
  induction l as [|y rest IH]; [reflexivity|].
  cbn [insert_by_mtime].
  destruct (st_mtime (snd x) <=? st_mtime (snd y)) eqn:E; [reflexivity|].
  apply Z.leb_gt in E.
  cbn [filter] in *. rewrite IH.
  unfold has_mtime.
  destruct (st_mtime (snd x) =? t) eqn:Ex, (st_mtime (snd y) =? t) eqn:Ey;
    try reflexivity.
  apply Z.eqb_eq in Ex, Ey. lia.
Qed.

Lemma sorted_by_mtime_stable t l :
  filter (has_mtime t) (sorted_by_mtime l) = filter (has_mtime t) l.
Proof.
  induction l as [|x rest IH]; [reflexivity|].
  cbn [sorted_by_mtime fold_right].
  fold (sorted_by_mtime rest).
  rewrite insert_by_mtime_stable. cbn [filter]. rewrite IH. reflexivity.
Qed.

Lemma removelast_map_fst (l : list (Path * File)) :
  removelast (map fst l) = map fst (removelast l).
Proof.
  induction l as [|x rest IH]; [reflexivity|].
  destruct rest as [|y rest']; [reflexivity|].
  change (removelast (map fst (x :: y :: rest')))
    with (fst x :: removelast (map fst (y :: rest'))).
  rewrite IH. reflexivity.
Qed.

Lemma select_files_eq listing :
  select_files listing
    = map fst (removelast (sorted_by_mtime (filter is_mp4_file listing))).
Proof.
  unfold select_files.
  rewrite removelast_map_fst.
  destruct (sorted_by_mtime (filter is_mp4_file listing)) as [|a [|b r]];
    reflexivity.
Qed.

Lemma NoDup_map_fst_filter (p : Path * File -> bool) l :
  NoDup (map fst l) -> NoDup (map fst (filter p l)).
Proof.
  induction l as [|x rest IH]; simpl; intros H; [constructor|].
  inversion H as [|? ? Hnotin Hnd]; subst.
  destruct (p x); [|apply IH; assumption].
  simpl. constructor; [|apply IH; assumption].
  intros Hin. apply Hnotin.
  apply in_map_iff in Hin. destruct Hin as [e [He Hine]].
  apply filter_In in Hine. destruct Hine as [Hine _].
  apply in_map_iff. exists e. split; assumption.
Qed.

Lemma last_not_in_removelast (l : list (Path * File)) d :
  NoDup (map fst l) -> l <> [] ->
  ~ In (fst (last l d)) (map fst (removelast l)).
Proof.
  intros Hnd Hne Hin.
  rewrite (app_removelast_last d Hne) in Hnd.
  rewrite map_app in Hnd. cbn [map] in Hnd.
  apply NoDup_remove_2 in Hnd. apply Hnd.
  rewrite app_nil_r. exact Hin.
Qed.

Lemma strongly_sorted_last (l : list (Path * File)) d :
  StronglySorted mtime_le l ->
  forall e, In e l -> mtime_le e (last l d).
Proof.
  induction l as [|x rest IH]; intros Hs e Hin; [contradiction|].
  inversion Hs as [|? ? Hrest Hall]; subst.
  destruct rest as [|y rest'].
  - destruct Hin as [<-|[]]. unfold mtime_le. cbn. lia.
  - change (last (x :: y :: rest') d) with (last (y :: rest') d).
    destruct Hin as [<-|Hin].
    + rewrite Forall_forall in Hall.
      eapply mtime_le_trans; [apply (Hall y); left; reflexivity|].
      apply IH; [assumption | left; reflexivity].
    + apply IH; assumption.
Qed.

Lemma in_dir_iff dir p : in_dir dir p = true <-> p = truediv dir (name p).
Proof. unfold in_dir. apply path_eqb_eq. Qed.

End SelectFacts.

(** ** Properties of the directory scan *)

Module ScanProps.
Import Pathlib PathlibFacts Fs FsFacts Py Uploader Spec SelectFacts.

(** C2.  The scan returns the regular files of the directory whose
    suffix is [.mp4], in ascending order of modification time (files
    with equal times in the order of the listing), without the last of
    them.  That last one is a newest file: no candidate is more recent,
    and it is not in the returned list; a file that is strictly more
    recent than every other candidate is therefore never returned. *)
Theorem files_to_upload_are_all_but_newest :
  forall recordings_dir w,
    NoDup (map fst (fs w)) ->
    let out := get_files_to_upload recordings_dir w in
    let candidates := filter is_mp4_file (iterdir recordings_dir (fs w)) in
    (forall p f,
        In (p, f) candidates <->
        In (p, f) (fs w) /\ p = truediv recordings_dir (name p) /\
        is_file f = true /\ suffix p = ".mp4") /\
    fs (snd out) = fs w /\
    exists sorted,
      Permutation sorted candidates /\
      StronglySorted mtime_le sorted /\
      (forall t, filter (has_mtime t) sorted = filter (has_mtime t) candidates) /\
      fst out = Ok (map fst (removelast sorted)) /\
      forall d,
        candidates <> [] ->
        let newest := last sorted d in
        sorted = (removelast sorted ++ [newest])%list /\
        In newest candidates /\
        (forall e, In e candidates -> st_mtime (snd e) <= st_mtime (snd newest)) /\
        ~ In (fst newest) (map fst (removelast sorted)) /\
        (forall e,
            In e candidates ->
            (forall e', In e' candidates -> e' <> e ->
                        st_mtime (snd e') < st_mtime (snd e)) ->
            ~ In (fst e) (map fst (removelast sorted))).
Proof.
  intros dir w Hnd out candidates.
  split.
  { intros p f. subst candidates. unfold iterdir.
    rewrite !filter_In. unfold is_mp4_file. cbn [fst snd].
    rewrite andb_true_iff, String.eqb_eq, in_dir_iff. tauto. }
  split; [reflexivity|].
  exists (sorted_by_mtime candidates).
  pose proof (sorted_by_mtime_perm candidates) as Hperm.
  pose proof (sorted_by_mtime_strongly_sorted candidates) as Hss.
  split; [exact Hperm|]. split; [exact Hss|].
  split; [intros t; apply sorted_by_mtime_stable|].
  split.
  { subst out. unfold get_files_to_upload, bind, emit. cbn [fst snd fs].
    rewrite select_files_eq. reflexivity. }
  intros d Hne newest.
  assert (Hne' : sorted_by_mtime candidates <> []).
  { intros E. rewrite E in Hperm. apply Permutation_nil in Hperm.
    contradiction. }
  split; [apply app_removelast_last; assumption|].
  assert (Hin : In newest (sorted_by_mtime candidates)).
  { subst newest. rewrite (app_removelast_last d Hne') at 2.
    apply in_or_app. right. left. reflexivity. }
  split; [eapply Permutation_in; eassumption|].
  split.
  { intros e He. apply (strongly_sorted_last _ d Hss).
    eapply Permutation_in; [apply Permutation_sym|]; eassumption. }
  assert (Hndc : NoDup (map fst candidates)).
  { subst candidates. unfold iterdir.
    apply NoDup_map_fst_filter, NoDup_map_fst_filter, Hnd. }
  assert (Hout : ~ In (fst newest)
                   (map fst (removelast (sorted_by_mtime candidates)))).
  { apply last_not_in_removelast; [|assumption].
    eapply Permutation_NoDup;
      [apply Permutation_map, Permutation_sym, Hperm | exact Hndc]. }
  split; [exact Hout|].
  intros e He Hstrict.
  assert (Hnew : In newest candidates)
    by (eapply Permutation_in; eassumption).
  assert (Hle : st_mtime (snd e) <= st_mtime (snd newest)).
  { apply (strongly_sorted_last _ d Hss).
    eapply Permutation_in; [apply Permutation_sym|]; eassumption. }
  assert (Heq : newest = e).
  { destruct (list_eq_dec String.string_dec (fst newest) (fst e)) as [Hp|Hp].
    - clear Hout Hle Hin. clearbody newest.
      destruct newest as [pn fn], e as [pe fe]. cbn [fst] in Hp. subst pe.
      pose proof (In_lookup _ _ _ Hndc Hnew) as H1.
      pose proof (In_lookup _ _ _ Hndc He) as H2.
      rewrite H1 in H2. inversion H2. reflexivity.
    - exfalso.
      assert (Hlt : st_mtime (snd newest) < st_mtime (snd e)).
      { apply Hstrict; [exact Hnew|]. intros E. apply Hp. rewrite E.
        reflexivity. }
      lia. }
  rewrite <- Heq. exact Hout.
Qed.

End ScanProps.

(** ** The behaviour of [main] *)

Module MainFacts.
Import Pathlib PathlibFacts Datetime Fs FsFacts Py Uploader Spec UploadFacts.

Lemma missing_config_all env :
  negb (all [truthy (AWS_REGION env); truthy (S3_BUCKET env)])
    = missing_config env.
Proof.
  unfold missing_config, all. cbn [forallb].
  destruct (truthy (AWS_REGION env)), (truthy (S3_BUCKET env)); reflexivity.
Qed.

Lemma main_run utcoffset boto3_client env w :
  main utcoffset boto3_client env w = main_cases utcoffset boto3_client env w.
Proof.
  unfold main, main_cases. rewrite missing_config_all.
  destruct (missing_config env); [reflexivity|].
  unfold create_client, get_files_to_upload, print, sys_exit, raise, emit,
    snoc_events.
  unfold bind at 1 2 3 4.
  cbn [fs trace].
  destruct (boto3_client "s3" (checked (AWS_REGION env))) as [c|];
    [|reflexivity].
  unfold ret at 1. cbn [fs trace].
  rewrite <- app_assoc. cbn [app].
  destruct (select_files (iterdir RECORDINGS_DIR (fs w))) as [|p rest] eqn:E.
  - unfold bind. cbn [fs trace]. rewrite <- app_assoc. reflexivity.
  - reflexivity.
Qed.

Lemma count_app c (a b : list event) :
  count c (a ++ b)%list = (count c a + count c b)%nat.
Proof. unfold count. rewrite filter_app, length_app. reflexivity. Qed.

Lemma calls_app_no_stat tail rest :
  count is_stat tail = O -> calls (tail ++ rest)%list = calls rest.
Proof.
  induction tail as [|e tail IH]; [reflexivity|].
  intros H. destruct e; try discriminate H; cbn [app calls]; apply IH, H.
Qed.

Lemma uploads_before_stat_app tail rest :
  count is_stat tail = O ->
  uploads_before_stat (tail ++ rest)%list
    = (count is_upload tail + uploads_before_stat rest)%nat.
Proof.
  induction tail as [|e tail IH]; [reflexivity|].
  intros H. destruct e; try discriminate H;
    cbn [app uploads_before_stat]; rewrite (IH H); reflexivity.
Qed.

Lemma calls_no_stat tail : count is_stat tail = O -> calls tail = [].
Proof.
  intros H. rewrite <- (app_nil_r tail).
  rewrite (calls_app_no_stat _ _ H). reflexivity.
Qed.

Lemma uploads_before_stat_no_stat tail :
  count is_stat tail = O -> uploads_before_stat tail = count is_upload tail.
Proof.
  intros H. rewrite <- (app_nil_r tail) at 1.
  rewrite (uploads_before_stat_app _ _ H). cbn. apply Nat.add_0_r.
Qed.

(** One call: it starts with the [stat] of its path, makes no other
    [stat] and at most one upload, and never raises [RuntimeError] or
    [SystemExit]. *)
Lemma upload_call_shape utcoffset file_path c bucket prefix dir w :
  let out := upload_file_to_s3 utcoffset file_path c bucket prefix dir w in
  exists tail,
    trace (snd out) = (trace w ++ EvStat file_path :: tail)%list /\
    count is_stat tail = O /\
    (count is_upload tail <= 1)%nat /\
    (forall m, fst out <> Raise (RuntimeError m)) /\
    (forall n, fst out <> Raise (SystemExit n)).
Proof.
  cbv zeta. rewrite upload_file_to_s3_run.
  unfold upload_file_to_s3_cases, snoc_events.
  destruct (lookup file_path (fs w)) as [f|].
  2:{ exists []. cbn. repeat split; try lia; intros; discriminate. }
  destruct (fromtimestamp utcoffset (creation_time f)) as [dt|].
  2:{ exists []. cbn. repeat split; try lia; intros; discriminate. }
  cbv zeta.
  match goal with
  | |- context [upload_outcome c ?w2 ?a ?b ?k] =>
      destruct (upload_outcome c w2 a b k) as [[o|o|o]|]
  end; cbn [fst snd trace]; eexists;
    (split; [cbn [app]; reflexivity|]);
    cbn; repeat split; try lia; intros; discriminate.
Qed.

Lemma main_loop_cons utcoffset env c p rest w :
  main_loop utcoffset env c (p :: rest) w =
  match upload_file_to_s3 utcoffset p c (checked (S3_BUCKET env))
          (S3_PREFIX env) RECORDINGS_DIR w with
  | (Ok _, w') => main_loop utcoffset env c rest w'
  | (Raise e, w') => (Raise e, w')
  end.
Proof.
  unfold main_loop. cbn [for_each].
  fold (main_loop utcoffset env c rest). unfold bind, ret.
  destruct (upload_file_to_s3 utcoffset p c _ _ _ w) as [[b|e] w'];
    reflexivity.
Qed.

(** The loop calls [upload_file_to_s3] on the files in order, once
    each, until the list is exhausted or a call raises. *)
Lemma main_loop_calls utcoffset env c files : forall w,
  let out := main_loop utcoffset env c files w in
  exists evs,
    trace (snd out) = (trace w ++ evs)%list /\
    uploads_before_stat evs = O /\
    (exists rest,
        files = (map fst (calls evs) ++ rest)%list /\
        (fst out = Ok tt -> rest = [])) /\
    Forall (fun cl => (snd cl <= 1)%nat) (calls evs) /\
    count is_upload evs = list_sum (map snd (calls evs)) /\
    (forall m, fst out <> Raise (RuntimeError m)) /\
    (forall n, fst out <> Raise (SystemExit n)).
Proof.
  induction files as [|p files IH]; intros w; cbv zeta.
  - exists []. cbn. rewrite app_nil_r.
    repeat split; try reflexivity; try (intros; discriminate).
    + exists []. split; [reflexivity | reflexivity].
    + constructor.
  - rewrite main_loop_cons.
    pose proof (upload_call_shape utcoffset p c
                  (checked (S3_BUCKET env)) (S3_PREFIX env)
                  RECORDINGS_DIR w) as Hcall.
    cbv zeta in Hcall.
    destruct (upload_file_to_s3 utcoffset p c _ _ _ w) as [[b|e] w1].
    + cbn [fst snd] in Hcall.
      destruct Hcall as (tail & Htr & Hst & Hup & _ & _).
      destruct (IH w1) as (evs & Htr' & Hu0 & (rest & Hfiles & Hdone)
                           & Hall & Hcount & Hrt & Hse).
      exists (EvStat p :: tail ++ evs)%list.
      split.
      { rewrite Htr', Htr, <- app_assoc. reflexivity. }
      split; [reflexivity|].
      cbn [calls].
      rewrite (calls_app_no_stat _ _ Hst),
        (uploads_before_stat_app _ _ Hst), Hu0, Nat.add_0_r.
      split.
      { exists rest. cbn [map fst app]. split; [|exact Hdone].
        rewrite <- Hfiles. reflexivity. }
      split; [constructor; [exact Hup | exact Hall]|].
      split.
      { change (EvStat p :: tail ++ evs)%list
          with ([EvStat p] ++ tail ++ evs)%list.
        rewrite !count_app, Hcount. cbn. reflexivity. }
      split; assumption.
    + cbn [fst snd] in Hcall |- *.
      destruct Hcall as (tail & Htr & Hst & Hup & Hrt & Hse).
      exists (EvStat p :: tail).
      split; [exact Htr|].
      split; [reflexivity|].
      cbn [calls].
      rewrite (calls_no_stat _ Hst), (uploads_before_stat_no_stat _ Hst).
      split.
      { exists files. split; [reflexivity | intros H; discriminate H]. }
      split; [constructor; [exact Hup | constructor]|].
      split.
      { change (EvStat p :: tail)%list with ([EvStat p] ++ tail)%list.
        rewrite count_app. cbn. lia. }
      split.
      * intros m E. apply (Hrt m). inversion E. reflexivity.
      * intros n E. apply (Hse n). inversion E. reflexivity.
Qed.

End MainFacts.

(** ** The loop of [main], file by file *)

Module LoopFacts.
Import Pathlib PathlibFacts Datetime Fs FsFacts Py Uploader Spec LoopSpec
  UploadFacts MainFacts.

Lemma main_loop_app utcoffset env c before rest : forall w,
  main_loop utcoffset env c (before ++ rest)%list w =
  match main_loop utcoffset env c before w with
  | (Ok _, w') => main_loop utcoffset env c rest w'
  | (Raise e, w') => (Raise e, w')
  end.
Proof.
  induction before as [|p before IH]; intros w; [reflexivity|].
  cbn [app]. rewrite !main_loop_cons.
  destruct (upload_file_to_s3 utcoffset p c _ _ _ w) as [[b|e] w1];
    [apply IH | reflexivity].
Qed.

(** The loop only adds to the trace. *)
Lemma main_loop_trace utcoffset env c files w :
  exists evs,
    trace (snd (main_loop utcoffset env c files w)) = (trace w ++ evs)%list.
Proof.
  destruct (main_loop_calls utcoffset env c files w) as (evs & H & _).
  exists evs. exact H.
Qed.

(** The loop starts with the [stat] of its first file. *)
Lemma main_loop_starts_with_stat utcoffset env c q rest w :
  exists later,
    trace (snd (main_loop utcoffset env c (q :: rest) w))
      = (trace w ++ EvStat q :: later)%list.
Proof.
  rewrite main_loop_cons.
  destruct (upload_call_shape utcoffset q c (checked (S3_BUCKET env))
              (S3_PREFIX env) RECORDINGS_DIR w) as (tail & Htr & _).
  destruct (upload_file_to_s3 utcoffset q c _ _ _ w) as [[b|e] w1];
    cbn [fst snd] in *.
  - destruct (main_loop_trace utcoffset env c rest w1) as (evs & Hevs).
    exists (tail ++ evs)%list.
    rewrite Hevs, Htr, <- app_assoc. reflexivity.
  - exists tail. exact Htr.
Qed.

(** A run of [main] that has come to the file [p]: the configuration is
    complete, the client created, the scan has returned
    [before ++ p :: rest], and the calls on [before] have all returned,
    leaving the world [w]. *)
Lemma main_at_file utcoffset boto3_client env c w0 before p rest w :
  missing_config env = false ->
  boto3_client "s3" (checked (AWS_REGION env)) = Some c ->
  select_files (iterdir RECORDINGS_DIR (fs w0)) = (before ++ p :: rest)%list ->
  main_loop utcoffset env c before (scanned env w0) = (Ok tt, w) ->
  main utcoffset boto3_client env w0 =
  match upload_file_to_s3 utcoffset p c (checked (S3_BUCKET env))
          (S3_PREFIX env) RECORDINGS_DIR w with
  | (Ok _, w') => main_loop utcoffset env c rest w'
  | (Raise e, w') => (Raise e, w')
  end.
Proof.
  intros Hcfg Hc Hsel Hreach.
  rewrite main_run. unfold main_cases. rewrite Hcfg, Hc, Hsel.
  fold (scanned env w0).
  destruct (before ++ p :: rest)%list as [|x l] eqn:E.
  { destruct before; discriminate E. }
  rewrite <- E, main_loop_app, Hreach. apply main_loop_cons.
Qed.

(** After a call that has returned, the loop and [main] go on with the
    remaining files, from the world the call has left. *)
Lemma after_returned_call utcoffset env c file_path w b :
  let out := upload_file_to_s3 utcoffset file_path c
               (checked (S3_BUCKET env)) (S3_PREFIX env) RECORDINGS_DIR w in
  fst out = Ok b ->
  (forall rest,
      main_loop utcoffset env c (file_path :: rest) w
        = main_loop utcoffset env c rest (snd out)) /\
  (forall boto3_client w0 before rest,
      missing_config env = false ->
      boto3_client "s3" (checked (AWS_REGION env)) = Some c ->
      select_files (iterdir RECORDINGS_DIR (fs w0))
        = (before ++ file_path :: rest)%list ->
      main_loop utcoffset env c before (scanned env w0) = (Ok tt, w) ->
      let run := main utcoffset boto3_client env w0 in
      run = main_loop utcoffset env c rest (snd out) /\
      (exists later, trace (snd run) = (trace (snd out) ++ later)%list) /\
      (forall q rest',
          rest = q :: rest' ->
          exists later,
            trace (snd run) = (trace (snd out) ++ EvStat q :: later)%list) /\
      (rest = [] -> run = (Ok tt, snd out))).
Proof.
  cbv zeta. intros Hret.
  assert (Hloop : forall rest,
             main_loop utcoffset env c (file_path :: rest) w
             = main_loop utcoffset env c rest
                 (snd (upload_file_to_s3 utcoffset file_path c
                         (checked (S3_BUCKET env)) (S3_PREFIX env)
                         RECORDINGS_DIR w))).
  { intros rest. rewrite main_loop_cons.
    destruct (upload_file_to_s3 utcoffset file_path c _ _ _ w) as [[b'|e] w1];
      [reflexivity | discriminate Hret]. }
  split; [exact Hloop|].
  intros boto3_client w0 before rest Hcfg Hc Hsel Hreach.
  assert (Hrun : main utcoffset boto3_client env w0
                 = main_loop utcoffset env c rest
                     (snd (upload_file_to_s3 utcoffset file_path c
                             (checked (S3_BUCKET env)) (S3_PREFIX env)
                             RECORDINGS_DIR w))).
  { rewrite (main_at_file utcoffset boto3_client env c w0 before file_path
               rest w Hcfg Hc Hsel Hreach).
    rewrite <- main_loop_cons. apply Hloop. }
  rewrite Hrun.
  split; [reflexivity|].
  split; [apply main_loop_trace|].
  split.
  - intros q rest' ->. apply main_loop_starts_with_stat.
  - intros ->. reflexivity.
Qed.

End LoopFacts.

(** ** Properties of [main] *)

Module MainProps.
Import Pathlib PathlibFacts Datetime Fs FsFacts Py Uploader Spec LoopSpec
  UploadFacts UploadProps SelectFacts MainFacts LoopFacts.

Lemma select_files_NoDup listing :
  NoDup (map fst listing) -> NoDup (select_files listing).
Proof.
  intros Hnd. rewrite select_files_eq.
  set (l := sorted_by_mtime (filter is_mp4_file listing)).
  assert (Hl : NoDup (map fst l)).
  { eapply Permutation_NoDup;
      [apply Permutation_map, Permutation_sym, sorted_by_mtime_perm|].
    apply NoDup_map_fst_filter, Hnd. }
  destruct l as [|x l'] eqn:E; [constructor|].
  assert (Hne : x :: l' <> []) by discriminate.
  rewrite (app_removelast_last x Hne), map_app in Hl.
  apply NoDup_app_remove_r in Hl. exact Hl.
Qed.

Lemma select_files_few listing :
  (List.length (filter is_mp4_file listing) < 2)%nat ->
  select_files listing = [].
Proof.
  intros H. unfold select_files.
  rewrite length_map, (Permutation_length (sorted_by_mtime_perm _)).
  apply Nat.ltb_lt in H. rewrite H. reflexivity.
Qed.

Lemma prefix_NoDup (a b : list Path) : NoDup (a ++ b)%list -> NoDup a.
Proof. apply NoDup_app_remove_r. Qed.

(** C6, as amended.  In a run of [main] every path returned by
    [get_files_to_upload] is passed to [upload_file_to_s3] at most once.
    The calls are made on an initial segment of the returned list, in
    its order and without repetition; in a run that ends without an
    exception, or with the exit taken when the list is empty, the
    segment is the whole list: every path has been passed exactly once.
    Each call makes at most one upload, and every upload of the run
    belongs to one of these calls.  Paths are counted here, not the
    files they lead to. *)
Theorem each_file_processed_once :
  forall utcoffset boto3_client env w,
    NoDup (map fst (fs w)) ->
    let out := main utcoffset boto3_client env w in
    let files := select_files (iterdir RECORDINGS_DIR (fs w)) in
    fst (get_files_to_upload RECORDINGS_DIR w) = Ok files /\
    NoDup files /\
    exists evs,
      trace (snd out) = (trace w ++ evs)%list /\
      (exists rest, files = (map fst (calls evs) ++ rest)%list) /\
      NoDup (map fst (calls evs)) /\
      (fst out = Ok tt \/ fst out = Raise (SystemExit 0) ->
       map fst (calls evs) = files) /\
      Forall (fun cl => (snd cl <= 1)%nat) (calls evs) /\
      count is_upload evs = list_sum (map snd (calls evs)).
Proof.
  intros utcoffset boto3_client env w Hnd out files.
  split; [reflexivity|].
  assert (Hfiles : NoDup files).
  { apply select_files_NoDup. unfold iterdir.
    apply NoDup_map_fst_filter, Hnd. }
  split; [exact Hfiles|].
  subst out. rewrite main_run. unfold main_cases, snoc_events.
  destruct (missing_config env).
  { exists []. cbn [fst snd]. rewrite app_nil_r.
    split; [reflexivity|]. split; [exists files; reflexivity|].
    split; [constructor|].
    split; [intros [H|H]; discriminate H|].
    split; [constructor | reflexivity]. }
  destruct (boto3_client "s3" (checked (AWS_REGION env))) as [c|].
  2:{ eexists. cbn [fst snd trace].
      split; [reflexivity|]. split; [exists files; reflexivity|].
      split; [constructor|].
      split; [intros [H|H]; discriminate H|].
      split; [constructor | reflexivity]. }
  fold files.
  destruct files as [|p rest] eqn:Efiles.
  { eexists. cbn [fst snd trace].
    split; [reflexivity|]. split; [exists []; reflexivity|].
    split; [constructor|].
    split; [reflexivity|].
    split; [constructor | reflexivity]. }
  rewrite <- Efiles in *. clear Efiles p rest.
  match goal with
  | |- context [main_loop utcoffset env c files ?w2] =>
      destruct (main_loop_calls utcoffset env c files w2)
        as (evs & Htr & _ & (rest & Hpre & Hdone) & Hall & Hcount & _ & Hse)
  end.
  exists ([EvClient "s3" (checked (AWS_REGION env)); EvScan RECORDINGS_DIR]
            ++ evs)%list.
  split.
  { rewrite Htr. cbn [trace]. rewrite <- app_assoc. reflexivity. }
  cbn [app calls].
  split; [exists rest; exact Hpre|].
  split; [apply (prefix_NoDup _ rest); rewrite <- Hpre; exact Hfiles|].
  split.
  { intros [H|H].
    - rewrite (Hdone H), app_nil_r in Hpre. symmetry. exact Hpre.
    - exfalso. apply (Hse 0). exact H. }
  split; [exact Hall|].
  change (EvClient "s3" (checked (AWS_REGION env)) :: EvScan RECORDINGS_DIR :: evs)
    with ([EvClient "s3" (checked (AWS_REGION env)); EvScan RECORDINGS_DIR]
            ++ evs)%list.
  rewrite count_app, Hcount. reflexivity.
Qed.

(** C8.  [main] raises [RuntimeError] exactly when [AWS_REGION] or
    [S3_BUCKET] is unset or empty.  It then raises before anything else
    happens: the world is as it was.  When both are set, the first thing
    [main] does is to create the client. *)
Theorem runtime_error_iff_missing_config :
  forall utcoffset boto3_client env w,
    let out := main utcoffset boto3_client env w in
    (missing_config env = true <->
       AWS_REGION env = None \/ AWS_REGION env = Some "" \/
       S3_BUCKET env = None \/ S3_BUCKET env = Some "") /\
    ((exists msg, fst out = Raise (RuntimeError msg)) <->
       missing_config env = true) /\
    (missing_config env = true ->
       out = (Raise (RuntimeError "Missing required AWS env variables"), w)) /\
    (missing_config env = false ->
       exists evs,
         trace (snd out) =
           (trace w ++ EvClient "s3" (checked (AWS_REGION env)) :: evs)%list).
Proof.
  intros utcoffset boto3_client env w out.
  split.
  { unfold missing_config, truthy, truthy_str.
    destruct (AWS_REGION env) as [[|a r]|], (S3_BUCKET env) as [[|b s]|];
      cbn; split; intros H; try reflexivity; try discriminate H;
      try (left; reflexivity);
      try (right; left; reflexivity);
      try (right; right; left; reflexivity);
      try (right; right; right; reflexivity);
      repeat (destruct H as [H|H]; try discriminate H);
      discriminate H. }
  subst out. rewrite main_run. unfold main_cases, snoc_events.
  destruct (missing_config env) eqn:Em.
  { split; [split; [reflexivity | intros _; eexists; reflexivity]|].
    split; [reflexivity | intros H; discriminate H]. }
  assert (Hno : forall r : result unit * World,
             (forall m, fst r <> Raise (RuntimeError m)) ->
             (exists msg, fst r = Raise (RuntimeError msg)) <-> false = true).
  { intros r Hr. split; [intros [msg H]; exfalso; apply (Hr msg H)
                        | intros H; discriminate H]. }
  destruct (boto3_client "s3" (checked (AWS_REGION env))) as [c|].
  2:{ split; [apply Hno; intros m H; discriminate H|].
      split; [intros H; discriminate H|].
      intros _. exists []. reflexivity. }
  destruct (select_files (iterdir RECORDINGS_DIR (fs w))) as [|p rest].
  { split; [apply Hno; intros m H; discriminate H|].
    split; [intros H; discriminate H|].
    intros _. eexists. cbn [snd trace app]. reflexivity. }
  match goal with
  | |- context [main_loop utcoffset env c ?fl ?w2] =>
      destruct (main_loop_calls utcoffset env c fl w2)
        as (evs & Htr & _ & _ & _ & _ & Hrt & _)
  end.
  split; [apply Hno; exact Hrt|].
  split; [intros H; discriminate H|].
  intros _. eexists. rewrite Htr. cbn [trace].
  rewrite <- app_assoc. cbn [app]. reflexivity.
Qed.

(** C9.  With fewer than two [.mp4] files in the directory the scan
    returns the empty list, and [main], once its configuration is
    checked and its client created, prints [Not enough files to process]
    and exits with status 0: it has renamed, uploaded and removed
    nothing. *)
Theorem too_few_files_exits :
  forall utcoffset boto3_client env w c,
    missing_config env = false ->
    boto3_client "s3" (checked (AWS_REGION env)) = Some c ->
    (List.length (filter is_mp4_file (iterdir RECORDINGS_DIR (fs w))) < 2)%nat ->
    fst (get_files_to_upload RECORDINGS_DIR w) = Ok [] /\
    main utcoffset boto3_client env w =
      (Raise (SystemExit 0),
       {| fs := fs w;
          trace := (trace w ++
            [EvClient "s3" (checked (AWS_REGION env));
             EvScan RECORDINGS_DIR;
             EvPrint "Not enough files to process"])%list |}).
Proof.
  intros utcoffset boto3_client env w c Hcfg Hc Hfew.
  pose proof (select_files_few _ Hfew) as Hsel.
  split.
  - unfold get_files_to_upload, bind, emit. cbn [fst snd fs].
    rewrite Hsel. reflexivity.
  - rewrite main_run. unfold main_cases, snoc_events.
    rewrite Hcfg, Hc, Hsel. reflexivity.
Qed.

(** C5.  A failed upload is reported and nothing more.  A call makes at
    most one upload, so a failed one is not tried again; when the upload
    fails with [BotoCoreError] or [ClientError] the call ends with one
    printed line that names the file, and returns [False].  And [main]
    then goes on: in a run of [main] that has come to this file, what
    [main] does from there is the loop on the remaining files, started
    after the last event of the failed call; when a file remains, the
    next thing that happens is the [stat] of the next file, and when
    none remains [main] ends normally. *)
Theorem failed_upload_is_reported_once :
  forall utcoffset file_path s3_client env w,
    let out := upload_file_to_s3 utcoffset file_path s3_client
                 (checked (S3_BUCKET env)) (S3_PREFIX env)
                 RECORDINGS_DIR w in
    exists evs,
      trace (snd out) = (trace w ++ evs)%list /\
      (count is_upload evs <= 1)%nat /\
      (forall fn b k e,
          In (EvUpload fn b k (Some e)) evs -> handled e = true ->
          fst out = Ok false /\
          (exists pre,
              evs = (pre ++
                [EvUpload fn b k (Some e);
                 EvPrint ("S3 upload failed for " ++ name file_path ++ ": "
                          ++ str_exn (exn_of_upload_error e))])%list /\
              count is_upload pre = O /\
              count is_unlink pre = O) /\
          (forall rest,
              main_loop utcoffset env s3_client (file_path :: rest) w
                = main_loop utcoffset env s3_client rest (snd out)) /\
          (forall boto3_client w0 before rest,
              missing_config env = false ->
              boto3_client "s3" (checked (AWS_REGION env)) = Some s3_client ->
              select_files (iterdir RECORDINGS_DIR (fs w0))
                = (before ++ file_path :: rest)%list ->
              main_loop utcoffset env s3_client before (scanned env w0)
                = (Ok tt, w) ->
              let run := main utcoffset boto3_client env w0 in
              run = main_loop utcoffset env s3_client rest (snd out) /\
              (exists later,
                  trace (snd run) = (trace (snd out) ++ later)%list) /\
              (forall q rest',
                  rest = q :: rest' ->
                  exists later,
                    trace (snd run)
                      = (trace (snd out) ++ EvStat q :: later)%list) /\
              (rest = [] -> run = (Ok tt, snd out)))).
Proof.
  intros utcoffset file_path c env w.
  pose proof (after_returned_call utcoffset env c file_path w false) as Hafter.
  cbv zeta in Hafter |- *.
  set (out := upload_file_to_s3 utcoffset file_path c
                (checked (S3_BUCKET env)) (S3_PREFIX env) RECORDINGS_DIR w) in *.
  assert (Hout : out = upload_file_to_s3_cases utcoffset file_path c
                         (checked (S3_BUCKET env)) (S3_PREFIX env)
                         RECORDINGS_DIR w)
    by apply upload_file_to_s3_run.
  clearbody out.
  unfold upload_file_to_s3_cases, snoc_events in Hout.
  destruct (lookup file_path (fs w)) as [f|] eqn:Hl.
  2:{ subst out. eexists. split; [reflexivity|]. split; [cbn; lia|].
      intros fn b k e Hin Hh. in_cases Hin. }
  destruct (fromtimestamp utcoffset (creation_time f)) as [dt|] eqn:Hdt.
  2:{ subst out. eexists. split; [reflexivity|]. split; [cbn; lia|].
      intros fn b k e Hin Hh. in_cases Hin. }
  cbv zeta in Hout.
  match type of Hout with
  | context [upload_outcome c ?w2 ?a ?b ?k] =>
      destruct (upload_outcome c w2 a b k) as [[o|o|o]|] eqn:Ho
  end; subst out; cbn [fst snd fs trace] in *;
    (eexists; split; [reflexivity|]); (split; [cbn; lia|]);
    intros fn b k e Hin Hh; in_cases Hin; try discriminate Hh.
  - split; [reflexivity|].
    split; [eexists [_; _; _]; repeat split; reflexivity|].
    apply Hafter. reflexivity.
  - split; [reflexivity|].
    split; [eexists [_; _; _]; repeat split; reflexivity|].
    apply Hafter. reflexivity.
Qed.

End MainProps.

(** ** A new name that is already taken *)

Module TakenNameProps.
Import Pathlib Datetime Fs Py Uploader Spec LoopSpec Examples RunExamples
  TakenNames.

(** C1.  A local file is lost although no upload has succeeded.  In the
    directory of [w_leftover] the name [gcam_01011970_000001.mp4] is
    borne by a recording that was never uploaded, and [a.mp4] was born
    in the same second.  The call on [a.mp4] renames it before it
    uploads, and the rename replaces the file that bears the new name.
    The upload is then denied: the call returns [False] and has unlinked
    nothing, yet the older recording is on disk no more. *)
Theorem rename_replaces_file_never_uploaded :
  let out := upload_file_to_s3 utc a_path denied_client "bucket" "videos"
               RECORDINGS_DIR w_leftover in
  lookup leftover_path (fs w_leftover) = Some leftover_file /\
  lookup a_path (fs w_leftover) = Some fresh_file /\
  on_disk (ino leftover_file) (fs w_leftover) = true /\
  fst out = Ok false /\
  trace (snd out) =
    [EvStat a_path;
     EvRename a_path leftover_path;
     EvPrint "Uploading to S3: s3://bucket/videos/1970-01-01/gcam_01011970_000001.mp4";
     EvUpload "recordings/gcam_01011970_000001.mp4" "bucket"
       "videos/1970-01-01/gcam_01011970_000001.mp4"
       (Some (UploadClientError "AccessDenied"));
     EvPrint "S3 upload failed for a.mp4: AccessDenied"] /\
  count is_unlink (trace (snd out)) = O /\
  map fst (fs (snd out)) = [leftover_path; c_path] /\
  option_map ino (lookup leftover_path (fs (snd out)))
    = Some (ino fresh_file) /\
  on_disk (ino fresh_file) (fs (snd out)) = true /\
  on_disk (ino leftover_file) (fs (snd out)) = false.
Proof.
  cbv zeta. repeat (split; [reflexivity|]). reflexivity.
Qed.

End TakenNameProps.

(** ** The properties at work on the example directory *)

Module Witnesses.
Import Pathlib PathlibFacts Datetime Fs FsFacts Py Uploader Spec LoopSpec
  Examples RunExamples TakenNames UploadProps ScanProps MainProps.

Lemma w0_NoDup : NoDup (map fst (fs w0)).
Proof.
  repeat constructor; cbn; intros H;
    repeat (destruct H as [H|H]; [discriminate H|]); exact H.
Defined.

Lemma w1_NoDup : NoDup (map fst (fs w1)).
Proof.
  repeat constructor; cbn; intros H;
    repeat (destruct H as [H|H]; [discriminate H|]); exact H.
Defined.

(** When the upload of [a.mp4] is denied, the call returns [False] and
    the file is on disk under its new name. *)
Lemma upload_deletes_only_after_success_witness :
  let out := upload_file_to_s3 utc a_path denied_client "bucket" "videos"
               RECORDINGS_DIR w0 in
  fst out = Ok false /\
  lookup ["recordings"; "gcam_01011970_000001.mp4"] (fs (snd out)) = Some a_file.
Proof.
  cbv zeta.
  destruct (upload_deletes_only_after_success utc a_path denied_client
              "bucket" "videos" RECORDINGS_DIR w0) as (evs & Htr & Hfail & _).
  vm_compute in Htr. subst evs.
  destruct (Hfail _ _ _ _
              (or_intror (or_intror (or_intror (or_introl eq_refl)))) eq_refl)
    as (Hret & _ & _).
  split; [exact Hret | reflexivity].
Defined.

(** C2, on the example directory: [a.mp4] then [b.mp4]; [c.mp4], the
    newest, is left out. *)
Lemma files_to_upload_are_all_but_newest_witness :
  NoDup (map fst (fs w0)) /\
  fst (get_files_to_upload RECORDINGS_DIR w0) = Ok [a_path; b_path] /\
  exists sorted,
    Permutation sorted (filter is_mp4_file (iterdir RECORDINGS_DIR (fs w0))) /\
    fst (get_files_to_upload RECORDINGS_DIR w0) = Ok (map fst (removelast sorted)).
Proof.
  split; [exact w0_NoDup|].
  split; [reflexivity|].
  destruct (files_to_upload_are_all_but_newest RECORDINGS_DIR w0 w0_NoDup)
    as (_ & _ & sorted & Hperm & _ & _ & Hout & _).
  exists sorted. split; [exact Hperm | exact Hout].
Defined.

(** C3, for [a.mp4], whose [stat] has no birth time. *)
Lemma name_from_creation_time_witness :
  lookup a_path (fs w0) = Some a_file /\
  fromtimestamp utc (st_ctime a_file) = Some a_dt /\
  strftime "gcam_%d%m%Y_%H%M%S.mp4" a_dt = "gcam_01011970_000001.mp4" /\
  String.length (strftime "gcam_%d%m%Y_%H%M%S.mp4" a_dt) = 24%nat.
Proof.
  split; [reflexivity|]. split; [reflexivity|]. split; [reflexivity|].
  destruct (name_from_creation_time utc a_path ok_client "bucket" "videos"
              RECORDINGS_DIR w0 a_file a_dt eq_refl eq_refl)
    as (_ & _ & Hlen & _).
  exact Hlen.
Defined.

(** C4, as amended, for [a.mp4] under the prefix of [env0]. *)
Lemma key_under_dated_prefix_witness :
  lookup a_path (fs w0) = Some a_file /\
  fromtimestamp utc (creation_time a_file) = Some a_dt /\
  exists key fn o pre post,
    trace (snd (upload_file_to_s3 utc a_path ok_client "bucket"
                  (S3_PREFIX env0) RECORDINGS_DIR w0))
      = (trace w0 ++ pre ++ EvUpload fn "bucket" key o :: post)%list /\
    starts_with_slash key = starts_with_slash (S3_PREFIX env0) /\
    has_double_slash key = has_double_slash (S3_PREFIX env0).
Proof.
  split; [reflexivity|]. split; [reflexivity|].
  destruct (key_under_dated_prefix utc a_path ok_client "bucket" env0
              RECORDINGS_DIR w0 a_file a_dt eq_refl eq_refl)
    as (_ & key & fn & o & pre & post & Htr & _ & _ & _ & _ & Hs & Hd & _).
  exists key, fn, o, pre, post.
  split; [exact Htr|]. split; [exact Hs | exact Hd].
Defined.

(** C4, as it was stated, fails: with [S3_PREFIX=/videos/] the key of
    [a.mp4] starts with a slash, and with [S3_PREFIX=cam//side] it has
    two slashes in a row. *)
Lemma configured_prefix_slashes_reach_key :
  (S3_PREFIX env0 <> "" /\
   In (EvUpload "recordings/gcam_01011970_000001.mp4" "bucket"
         "/videos/1970-01-01/gcam_01011970_000001.mp4" None)
      (trace (snd (main utc boto3_ok env0 w0))) /\
   starts_with_slash "/videos/1970-01-01/gcam_01011970_000001.mp4" = true) /\
  (S3_PREFIX env2 <> "" /\
   In (EvUpload "recordings/gcam_01011970_000001.mp4" "bucket"
         "cam//side/1970-01-01/gcam_01011970_000001.mp4" None)
      (trace (snd (main utc boto3_ok env2 w0))) /\
   has_double_slash "cam//side/1970-01-01/gcam_01011970_000001.mp4" = true).
Proof.
  split; (split; [discriminate|]); (split; [|reflexivity]);
    vm_compute; do 5 right; left; reflexivity.
Qed.

(** C5, in the run of [main] on the example directory when every upload
    is denied: the call on [a.mp4] returns [False], and [main] goes on
    with the [stat] of [b.mp4] and tries to upload it too. *)
Lemma failed_upload_is_reported_once_witness :
  let out := upload_file_to_s3 utc a_path denied_client
               (checked (S3_BUCKET env0)) (S3_PREFIX env0) RECORDINGS_DIR
               (scanned env0 w0) in
  let run := main utc boto3_denied env0 w0 in
  select_files (iterdir RECORDINGS_DIR (fs w0)) = [a_path; b_path] /\
  fst out = Ok false /\
  run = main_loop utc env0 denied_client [b_path] (snd out) /\
  (exists later,
      trace (snd run) = (trace (snd out) ++ EvStat b_path :: later)%list) /\
  uploaded_names (trace (snd run))
    = ["recordings/gcam_01011970_000001.mp4";
       "recordings/gcam_01011970_000002.mp4"] /\
  fst run = Ok tt.
Proof.
  cbv zeta.
  destruct (failed_upload_is_reported_once utc a_path denied_client env0
              (scanned env0 w0)) as (evs & Htr & _ & Hfail).
  vm_compute in Htr. injection Htr as Hevs. subst evs.
  destruct (Hfail _ _ _ _
              (or_intror (or_intror (or_intror (or_introl eq_refl)))) eq_refl)
    as (Hret & _ & _ & Hmain).
  destruct (Hmain boto3_denied w0 [] [b_path] eq_refl eq_refl eq_refl eq_refl)
    as (Hrun & _ & Hnext & _).
  split; [reflexivity|].
  split; [exact Hret|].
  split; [exact Hrun|].
  split; [exact (Hnext b_path [] eq_refl)|].
  split; reflexivity.
Defined.

(** C6, as it was stated, fails.  On the example directory, when the
    transfer of [a.mp4] fails with [S3UploadFailedError], the exception
    leaves [main]: [b.mp4], which the scan returned, is never passed to
    [upload_file_to_s3].  And paths are not files: in the directory of
    [w_leftover], with every upload denied, the call on [a.mp4] moves
    that file to the name borne by the second entry of the list, so that
    the call on this entry finds the same file again; the two calls of
    [upload_file] are made for one file, and none for the other. *)
Lemma uncaught_error_leaves_files_unprocessed :
  (let run := main utc boto3_broken env0 w0 in
   fst (get_files_to_upload RECORDINGS_DIR w0) = Ok [a_path; b_path] /\
   fst run = Raise (S3UploadFailedError "Failed to upload") /\
   calls (trace (snd run)) = [(a_path, 1%nat)] /\
   count is_stat (trace (snd run)) = 1%nat /\
   lookup b_path (fs (snd run)) = Some b_file) /\
  (let first := upload_file_to_s3 utc a_path denied_client
                  (checked (S3_BUCKET env0)) (S3_PREFIX env0) RECORDINGS_DIR
                  (scanned env0 w_leftover) in
   let second := upload_file_to_s3 utc leftover_path denied_client
                   (checked (S3_BUCKET env0)) (S3_PREFIX env0) RECORDINGS_DIR
                   (snd first) in
   let run := main utc boto3_denied env0 w_leftover in
   fst (get_files_to_upload RECORDINGS_DIR w_leftover)
     = Ok [a_path; leftover_path] /\
   lookup a_path (fs w_leftover) = Some fresh_file /\
   lookup leftover_path (fs w_leftover) = Some leftover_file /\
   run = (Ok tt, snd second) /\
   calls (trace (snd run)) = [(a_path, 1%nat); (leftover_path, 1%nat)] /\
   uploaded_names (trace (snd run))
     = ["recordings/gcam_01011970_000001.mp4";
        "recordings/gcam_01011970_000001.mp4"] /\
   option_map ino (lookup leftover_path (fs (snd first)))
     = Some (ino fresh_file) /\
   option_map ino (lookup leftover_path (fs (snd second)))
     = Some (ino fresh_file) /\
   on_disk (ino leftover_file) (fs (snd first)) = false).
Proof.
  cbv zeta. split; repeat (split; [reflexivity|]); reflexivity.
Qed.

(** C6, as amended, on the example directory: one call for [a.mp4],
    one for [b.mp4], one upload each. *)
Lemma each_file_processed_once_witness :
  NoDup (map fst (fs w0)) /\
  exists evs,
    trace (snd (main utc boto3_ok env0 w0)) = (trace w0 ++ evs)%list /\
    map fst (calls evs) = [a_path; b_path] /\
    Forall (fun cl => (snd cl <= 1)%nat) (calls evs).
Proof.
  split; [exact w0_NoDup|].
  destruct (each_file_processed_once utc boto3_ok env0 w0 w0_NoDup)
    as (_ & _ & evs & Htr & _ & _ & Hdone & Hall & _).
  exists evs. split; [exact Htr|]. split; [|exact Hall].
  apply Hdone. left. reflexivity.
Defined.


(** C8, with [AWS_REGION] unset: [RuntimeError], and nothing done. *)
Lemma runtime_error_iff_missing_config_witness :
  let env := {| env_AWS_REGION := None;
                env_S3_BUCKET_NAME := Some "bucket";
                env_S3_PREFIX := None |} in
  main utc boto3_ok env w0
    = (Raise (RuntimeError "Missing required AWS env variables"), w0).
Proof.
  cbv zeta.
  apply (runtime_error_iff_missing_config utc boto3_ok
           {| env_AWS_REGION := None;
              env_S3_BUCKET_NAME := Some "bucket";
              env_S3_PREFIX := None |} w0).
  reflexivity.
Defined.

(** C9, on the directory with a single recording. *)
Lemma too_few_files_exits_witness :
  missing_config env0 = false /\
  boto3_ok "s3" (checked (AWS_REGION env0)) = Some ok_client /\
  (List.length (filter is_mp4_file (iterdir RECORDINGS_DIR (fs w1))) < 2)%nat /\
  fst (main utc boto3_ok env0 w1) = Raise (SystemExit 0) /\
  fs (snd (main utc boto3_ok env0 w1)) = fs w1.
Proof.
  assert (Hfew : (List.length (filter is_mp4_file
                    (iterdir RECORDINGS_DIR (fs w1))) < 2)%nat)
    by (vm_compute; lia).
  split; [reflexivity|]. split; [reflexivity|]. split; [exact Hfew|].
  destruct (too_few_files_exits utc boto3_ok env0 w1 ok_client
              eq_refl eq_refl Hfew) as (_ & Hmain).
  rewrite Hmain. split; reflexivity.
Defined.

(** C10, when the upload of [b.mp4] is denied: the file stays, under
    the name made from its birth time. *)
Lemma failed_upload_keeps_new_name_witness :
  let out := upload_file_to_s3 utc b_path denied_client "bucket" "videos"
               RECORDINGS_DIR w0 in
  exists f dt,
    lookup b_path (fs w0) = Some f /\
    fromtimestamp utc (creation_time f) = Some dt /\
    lookup (truediv RECORDINGS_DIR (gcam_name dt)) (fs (snd out)) = Some f /\
    fst out = Ok false.
Proof.
  cbv zeta.
  destruct (failed_upload_keeps_new_name utc b_path denied_client "bucket"
              "videos" RECORDINGS_DIR w0) as (evs & Htr & Hfail).
  vm_compute in Htr. subst evs.
  destruct (Hfail _ _ _ _
              (or_intror (or_intror (or_intror (or_introl eq_refl)))) eq_refl)
    as (f & dt & _ & _ & Hl & Hdt & Hret & Hnew & _).
  exists f, dt. repeat split; assumption.
Defined.

End Witnesses.

(** ** One call, case by case *)

Module CallFacts.
Import Pathlib PathlibFacts Datetime DatetimeFacts Fs FsFacts Py Uploader Spec
  RunSpec UploadFacts.

Lemma call_missing utcoffset file_path c bucket prefix dir w :
  lookup file_path (fs w) = None ->
  upload_file_to_s3 utcoffset file_path c bucket prefix dir w =
  (Raise (FileNotFoundError (str file_path)),
   {| fs := fs w; trace := (trace w ++ [EvStat file_path])%list |}).
Proof.
  intros Hl. rewrite upload_file_to_s3_run.
  unfold upload_file_to_s3_cases, snoc_events. rewrite Hl. reflexivity.
Qed.

Lemma call_ok utcoffset file_path c bucket prefix dir w f dt :
  lookup file_path (fs w) = Some f ->
  fromtimestamp utcoffset (creation_time f) = Some dt ->
  always_succeeds c ->
  upload_file_to_s3 utcoffset file_path c bucket prefix dir w =
  (Ok true,
   {| fs := remove (truediv dir (gcam_name dt))
              (renamed file_path (truediv dir (gcam_name dt)) f (fs w));
      trace := (trace w ++
        [EvStat file_path;
         EvRename file_path (truediv dir (gcam_name dt));
         EvPrint ("Uploading to S3: s3://" ++ bucket ++ "/" ++ s3_key_of prefix dt);
         EvUpload (str (truediv dir (gcam_name dt))) bucket (s3_key_of prefix dt) None;
         EvUnlink (truediv dir (gcam_name dt));
         EvPrint ("Deleted local file: " ++ gcam_name dt)])%list |}).
Proof.
  intros Hl Hdt Hc. rewrite upload_file_to_s3_run.
  unfold upload_file_to_s3_cases, snoc_events. rewrite Hl, Hdt. cbv zeta.
  rewrite Hc. reflexivity.
Qed.

Lemma call_fail utcoffset file_path c bucket prefix dir w f dt :
  lookup file_path (fs w) = Some f ->
  fromtimestamp utcoffset (creation_time f) = Some dt ->
  always_fails c ->
  exists e,
    handled e = true /\
    upload_file_to_s3 utcoffset file_path c bucket prefix dir w =
    (Ok false,
     {| fs := renamed file_path (truediv dir (gcam_name dt)) f (fs w);
        trace := (trace w ++
          [EvStat file_path;
           EvRename file_path (truediv dir (gcam_name dt));
           EvPrint ("Uploading to S3: s3://" ++ bucket ++ "/" ++ s3_key_of prefix dt);
           EvUpload (str (truediv dir (gcam_name dt))) bucket (s3_key_of prefix dt)
             (Some e);
           EvPrint ("S3 upload failed for " ++ name file_path ++ ": "
                    ++ str_exn (exn_of_upload_error e))])%list |}).
Proof.
  intros Hl Hdt Hc. rewrite upload_file_to_s3_run.
  unfold upload_file_to_s3_cases, snoc_events. rewrite Hl, Hdt. cbv zeta.
  match goal with
  | |- context [upload_outcome c ?w2 ?a ?b ?k] =>
      destruct (Hc w2 a b k) as (e & He & Hh); rewrite He
  end.
  exists e. split; [exact Hh|].
  destruct e as [m|m|m]; try reflexivity. discriminate Hh.
Qed.

(** A call leaves alone every path but the one it is given and the one
    it renames to. *)
Lemma call_lookup_other utcoffset file_path c bucket prefix dir w p :
  p <> file_path ->
  (forall f dt,
      lookup file_path (fs w) = Some f ->
      fromtimestamp utcoffset (creation_time f) = Some dt ->
      p <> truediv dir (gcam_name dt)) ->
  lookup p (fs (snd (upload_file_to_s3 utcoffset file_path c bucket prefix dir w)))
    = lookup p (fs w).
Proof.
  intros Hp Ht. rewrite upload_file_to_s3_run.
  unfold upload_file_to_s3_cases, snoc_events.
  destruct (lookup file_path (fs w)) as [f|] eqn:Hl; [|reflexivity].
  destruct (fromtimestamp utcoffset (creation_time f)) as [dt|] eqn:Hdt;
    [|reflexivity].
  specialize (Ht f dt eq_refl Hdt). cbv zeta.
  match goal with
  | |- context [upload_outcome c ?w2 ?a ?b ?k] =>
      destruct (upload_outcome c w2 a b k) as [[m|m|m]|]
  end; cbn [fst snd fs];
    rewrite ?lookup_remove_other by assumption;
    apply lookup_renamed_other; assumption.
Qed.

End CallFacts.

(** ** The loop of [main], run to its end *)

Module RunFacts.
Import Pathlib PathlibFacts Datetime DatetimeFacts Fs FsFacts Py Uploader Spec
  RunSpec UploadFacts CallFacts MainFacts.

Lemma flat_map_ext_in {A B} (f g : A -> list B) l :
  (forall a, In a l -> f a = g a) -> flat_map f l = flat_map g l.
Proof.
  induction l as [|x l IH]; intros H; [reflexivity|].
  cbn [flat_map]. rewrite (H x (or_introl eq_refl)), IH; [reflexivity|].
  intros a Ha. apply H. right. exact Ha.
Qed.

Lemma birth_of_some utcoffset fs0 p dt :
  birth_of utcoffset fs0 p = Some dt ->
  exists f, lookup p fs0 = Some f /\
            fromtimestamp utcoffset (creation_time f) = Some dt.
Proof.
  unfold birth_of. destruct (lookup p fs0) as [f|]; [|discriminate].
  intros H. exists f. split; [reflexivity | exact H].
Qed.

Lemma birth_of_ext utcoffset fs1 fs2 p :
  lookup p fs1 = lookup p fs2 ->
  birth_of utcoffset fs1 p = birth_of utcoffset fs2 p.
Proof. unfold birth_of. intros ->. reflexivity. Qed.

(** The file system after a successful call, path by path. *)
Lemma lookup_after_ok src dst f fs0 x :
  lookup src fs0 = Some f -> lookup dst fs0 = None ->
  lookup x (remove dst (renamed src dst f fs0))
    = if path_eq_dec x src then None else lookup x fs0.
Proof.
  intros Hs Hd.
  assert (Hne : src <> dst) by (intros E; congruence).
  destruct (path_eq_dec x src) as [->|Hx].
  - rewrite lookup_remove_other by assumption.
    apply lookup_renamed_src. assumption.
  - destruct (path_eq_dec x dst) as [->|Hxd].
    + rewrite lookup_remove_same. symmetry. exact Hd.
    + rewrite lookup_remove_other by assumption.
      apply lookup_renamed_other; assumption.
Qed.

(** With a client that always succeeds and new names that are free, the
    loop uploads and removes every file. *)
Lemma main_loop_all_ok utcoffset env c :
  always_succeeds c ->
  forall files w,
    NoDup files ->
    (forall p, In p files ->
       exists dt,
         birth_of utcoffset (fs w) p = Some dt /\
         lookup (truediv RECORDINGS_DIR (gcam_name dt)) (fs w) = None) ->
    exists w',
      main_loop utcoffset env c files w = (Ok tt, w') /\
      (forall x, In x files -> lookup x (fs w') = None) /\
      (forall x, ~ In x files -> lookup x (fs w') = lookup x (fs w)) /\
      exists evs,
        trace w' = (trace w ++ evs)%list /\
        filter is_upload evs
          = flat_map (expected_upload utcoffset env (fs w)) files /\
        count is_unlink evs = List.length files /\
        count is_rename evs = List.length files.
Proof.
  intros Hc files. induction files as [|p rest IH]; intros w Hnd Hfiles.
  - exists w. split; [reflexivity|].
    split; [intros x []|]. split; [reflexivity|].
    exists []. rewrite app_nil_r. repeat split; reflexivity.
  - inversion Hnd as [|? ? Hnotin Hnd']; subst.
    destruct (Hfiles p (or_introl eq_refl)) as (dt & Hb & Hfree).
    destruct (birth_of_some _ _ _ _ Hb) as (f & Hl & Hdt).
    rewrite main_loop_cons.
    rewrite (call_ok utcoffset p c _ _ RECORDINGS_DIR w f dt Hl Hdt Hc).
    set (target := truediv RECORDINGS_DIR (gcam_name dt)) in *.
    set (fs1 := remove target (renamed p target f (fs w))).
    assert (Hfs1 : forall x,
               lookup x fs1 = if path_eq_dec x p then None else lookup x (fs w))
      by (intros x; apply lookup_after_ok; assumption).
    match goal with
    | |- context [main_loop utcoffset env c rest ?w1] =>
        destruct (IH w1 Hnd') as (w' & Hrun & Hgone & Hkept & evs & Htr & Hup & Hun & Hre)
    end.
    { intros q Hq. cbn [fs].
      destruct (Hfiles q (or_intror Hq)) as (dtq & Hbq & Hfreeq).
      exists dtq. split.
      - rewrite <- Hbq. apply birth_of_ext. rewrite Hfs1.
        destruct (path_eq_dec q p) as [->|_]; [contradiction | reflexivity].
      - rewrite Hfs1. destruct (path_eq_dec _ p); [reflexivity | exact Hfreeq]. }
    cbn [fs trace] in *.
    exists w'. split; [exact Hrun|].
    split.
    { intros x [<-|Hx]; [|apply Hgone; exact Hx].
      rewrite (Hkept p Hnotin), Hfs1.
      destruct (path_eq_dec p p); [reflexivity | contradiction]. }
    split.
    { intros x Hx.
      assert (Hxp : x <> p) by (intros ->; apply Hx; left; reflexivity).
      rewrite Hkept by (intros Hin; apply Hx; right; exact Hin).
      rewrite Hfs1. destruct (path_eq_dec x p); [contradiction | reflexivity]. }
    eexists. split; [rewrite Htr, <- app_assoc; reflexivity|].
    split.
    { rewrite filter_app, Hup. cbn [flat_map].
      unfold expected_upload at 2. rewrite Hb. fold target.
      cbn [filter is_upload app]. f_equal.
      apply flat_map_ext_in. intros q Hq. unfold expected_upload.
      rewrite (birth_of_ext utcoffset fs1 (fs w) q); [reflexivity|].
      rewrite Hfs1.
      destruct (path_eq_dec q p) as [->|_]; [contradiction | reflexivity]. }
    rewrite !count_app, Hun, Hre. split; reflexivity.
Qed.

(** With a client that always fails, the loop still calls
    [upload_file_to_s3] on every file and comes to its end. *)
Lemma main_loop_all_fail utcoffset env c :
  always_fails c ->
  forall files w,
    NoDup files ->
    (forall p, In p files -> exists dt, birth_of utcoffset (fs w) p = Some dt) ->
    exists w',
      main_loop utcoffset env c files w = (Ok tt, w') /\
      exists evs,
        trace w' = (trace w ++ evs)%list /\
        count is_upload evs = List.length files /\
        count is_unlink evs = O /\
        Forall (fun e => forall fn b k, e <> EvUpload fn b k None) evs.
Proof.
  intros Hc files. induction files as [|p rest IH]; intros w Hnd Hfiles.
  - exists w. split; [reflexivity|].
    exists []. rewrite app_nil_r. repeat split; try reflexivity. constructor.
  - inversion Hnd as [|? ? Hnotin Hnd']; subst.
    destruct (Hfiles p (or_introl eq_refl)) as (dt & Hb).
    destruct (birth_of_some _ _ _ _ Hb) as (f & Hl & Hdt).
    rewrite main_loop_cons.
    destruct (call_fail utcoffset p c (checked (S3_BUCKET env)) (S3_PREFIX env)
                RECORDINGS_DIR w f dt Hl Hdt Hc) as (e & Hh & Hcall).
    rewrite Hcall.
    set (target := truediv RECORDINGS_DIR (gcam_name dt)) in *.
    match goal with
    | |- context [main_loop utcoffset env c rest ?w1] =>
        destruct (IH w1 Hnd') as (w' & Hrun & evs & Htr & Hup & Hun & Hall)
    end.
    { intros q Hq. cbn [fs].
      assert (Hqp : q <> p) by (intros ->; contradiction).
      destruct (path_eq_dec q target) as [->|Hqt].
      - exists dt. unfold birth_of.
        rewrite (lookup_renamed_dst _ _ _ _ Hl). exact Hdt.
      - destruct (Hfiles q (or_intror Hq)) as (dtq & Hbq).
        exists dtq. rewrite <- Hbq. apply birth_of_ext.
        apply lookup_renamed_other; assumption. }
    cbn [fs trace] in *.
    exists w'. split; [exact Hrun|].
    eexists. split; [rewrite Htr, <- app_assoc; reflexivity|].
    rewrite !count_app, Hup, Hun.
    split; [reflexivity|]. split; [reflexivity|].
    apply Forall_app. split; [|exact Hall].
    repeat constructor; intros fn b k E; discriminate E.
Qed.



End RunFacts.

(** ** Facts about trailing slashes and about suffixes *)

Module MoreStringFacts.
Import Pathlib PathlibFacts Datetime Uploader Spec RunSpec StringFacts.

Lemma rstrip_slashes k : rstrip "/" (slashes k) = "".
Proof.
  induction k as [|k IH]; [reflexivity|].
  cbn [slashes rstrip]. rewrite IH. reflexivity.
Qed.

Lemma rstrip_app_slashes t k : rstrip "/" (t ++ slashes k) = rstrip "/" t.
Proof.
  induction t as [|x t IH].
  - cbn [append]. apply rstrip_slashes.
  - change ((String x t) ++ slashes k) with (String x (t ++ slashes k)).
    cbn [rstrip]. rewrite IH. reflexivity.
Qed.

Lemma rstrip_fixed t : ends_with_slash t = false -> rstrip "/" t = t.
Proof.
  induction t as [|x t IH]; [reflexivity|].
  cbn [ends_with_slash rstrip]. destruct t as [|y t'].
  - intros Hx. cbn [rstrip]. rewrite Hx. reflexivity.
  - intros H. rewrite (IH H). reflexivity.
Qed.

Lemma rstrip_decompose s : exists k, s = rstrip "/" s ++ slashes k.
Proof.
  induction s as [|x s (k & IH)]; [exists O; reflexivity|].
  cbn [rstrip]. destruct (rstrip "/" s) as [|y r] eqn:E.
  - destruct (Ascii.eqb x "/") eqn:Ex.
    + apply Ascii.eqb_eq in Ex. subst x.
      exists (S k). cbn [append slashes]. f_equal. exact IH.
    + exists k. cbn [append]. f_equal. exact IH.
  - exists k. cbn [append]. f_equal. exact IH.
Qed.

Lemma rfind_app c a b :
  rfind c (a ++ b) =
  match rfind c b with
  | Some i => Some (String.length a + i)%nat
  | None => rfind c a
  end.
Proof.
  induction a as [|x a IH].
  - cbn [append String.length rfind]. destruct (rfind c b); reflexivity.
  - change ((String x a) ++ b) with (String x (a ++ b)).
    cbn [rfind String.length]. rewrite IH.
    destruct (rfind c b); reflexivity.
Qed.

Lemma rfind_gcam_name dt : rfind "." (gcam_name dt) = Some 20%nat.
Proof.
  unfold gcam_name. rewrite !rfind_app. reflexivity.
Qed.

Lemma suffix_gcam_name dir dt : suffix (truediv dir (gcam_name dt)) = ".mp4".
Proof.
  unfold suffix. rewrite name_truediv. cbv zeta.
  rewrite rfind_gcam_name, gcam_name_length. reflexivity.
Qed.

End MoreStringFacts.

(** ** Properties of whole runs *)

Module RunProps.
Import Pathlib PathlibFacts Datetime DatetimeFacts StringFacts MoreStringFacts
  Fs FsFacts Py Uploader Spec RunSpec UploadFacts CallFacts SelectFacts
  MainFacts RunFacts.

(** X1.  A path that is not on disk makes the call raise
    [FileNotFoundError] right after the [stat]: nothing is renamed,
    uploaded or printed, the exception is not caught, and the loop of
    [main] stops there without processing the remaining files. *)
Theorem missing_file_stops_the_run :
  forall utcoffset env s3_client file_path rest w,
    lookup file_path (fs w) = None ->
    let w' := {| fs := fs w; trace := (trace w ++ [EvStat file_path])%list |} in
    (forall bucket prefix recordings_dir,
        upload_file_to_s3 utcoffset file_path s3_client bucket prefix
          recordings_dir w
        = (Raise (FileNotFoundError (str file_path)), w')) /\
    main_loop utcoffset env s3_client (file_path :: rest) w
      = (Raise (FileNotFoundError (str file_path)), w').
Proof.
  intros utcoffset env c file_path rest w Hl w'. subst w'. split.
  - intros bucket prefix dir. apply call_missing. exact Hl.
  - rewrite main_loop_cons, (call_missing _ _ _ _ _ _ _ Hl). reflexivity.
Qed.

(** X2.  An upload that fails with an exception other than
    [BotoCoreError] and [ClientError] is not handled: the call raises it,
    prints no failure message and unlinks nothing, the file stays on disk
    under its new name, and the loop of [main] stops without processing
    the remaining files. *)
Theorem unhandled_upload_error_stops_the_run :
  forall utcoffset env s3_client file_path rest w,
    let out := upload_file_to_s3 utcoffset file_path s3_client
                 (checked (S3_BUCKET env)) (S3_PREFIX env) RECORDINGS_DIR w in
    exists evs,
      trace (snd out) = (trace w ++ evs)%list /\
      forall fn b k m,
        In (EvUpload fn b k (Some (UploadS3UploadFailedError m))) evs ->
        fst out = Raise (S3UploadFailedError m) /\
        (exists pre,
            evs = (pre ++ [EvUpload fn b k (Some (UploadS3UploadFailedError m))])%list /\
            count is_print pre = 1%nat) /\
        count is_unlink evs = O /\
        (exists f dt,
            lookup file_path (fs w) = Some f /\
            fromtimestamp utcoffset (creation_time f) = Some dt /\
            lookup (truediv RECORDINGS_DIR (gcam_name dt)) (fs (snd out)) = Some f) /\
        main_loop utcoffset env s3_client (file_path :: rest) w
          = (Raise (S3UploadFailedError m), snd out).
Proof.
  intros utcoffset env c file_path rest w. cbv zeta.
  rewrite main_loop_cons.
  rewrite upload_file_to_s3_run.
  unfold upload_file_to_s3_cases, snoc_events.
  destruct (lookup file_path (fs w)) as [f|] eqn:Hl.
  2:{ eexists. split; [reflexivity|]. intros fn b k m Hin.
      cbn in Hin. destruct Hin as [H|[]]. discriminate H. }
  destruct (fromtimestamp utcoffset (creation_time f)) as [dt|] eqn:Hdt.
  2:{ eexists. split; [reflexivity|]. intros fn b k m Hin.
      cbn in Hin. destruct Hin as [H|[]]. discriminate H. }
  cbv zeta.
  match goal with
  | |- context [upload_outcome c ?w2 ?a ?b ?k] =>
      destruct (upload_outcome c w2 a b k) as [[o|o|o]|] eqn:Ho
  end; cbn [fst snd fs trace]; (eexists; split; [reflexivity|]);
    intros fn b k m Hin; cbn [app In] in Hin;
    repeat (destruct Hin as [Hin|Hin]; try discriminate Hin);
    try contradiction.
  inversion Hin; subst.
  split; [reflexivity|].
  split; [eexists [_; _; _]; split; reflexivity|].
  split; [reflexivity|].
  split; [|reflexivity].
  exists f, dt. split; [reflexivity|]. split; [exact Hdt|].
  apply lookup_renamed_dst. exact Hl.
Qed.

(** X3.  What one call does to the files.  Every path other than the one
    it is given and the one it renames to is left as it was.  When the
    call returns [True] the file is on disk under neither name; in every
    other case it is still on disk, under its old name or under the new
    one. *)
Theorem call_effect_on_files :
  forall utcoffset file_path s3_client bucket prefix recordings_dir w f,
    lookup file_path (fs w) = Some f ->
    let out := upload_file_to_s3 utcoffset file_path s3_client bucket prefix
                 recordings_dir w in
    let new_path dt := truediv recordings_dir (gcam_name dt) in
    (forall p,
        p <> file_path ->
        (forall dt, fromtimestamp utcoffset (creation_time f) = Some dt ->
                    p <> new_path dt) ->
        lookup p (fs (snd out)) = lookup p (fs w)) /\
    (fst out = Ok true ->
     lookup file_path (fs (snd out)) = None /\
     exists dt,
       fromtimestamp utcoffset (creation_time f) = Some dt /\
       lookup (new_path dt) (fs (snd out)) = None) /\
    (fst out <> Ok true ->
     lookup file_path (fs (snd out)) = Some f \/
     exists dt,
       fromtimestamp utcoffset (creation_time f) = Some dt /\
       lookup (new_path dt) (fs (snd out)) = Some f).
Proof.
  intros utcoffset file_path c bucket prefix dir w f Hl out new_path.
  split.
  { intros p Hp Ht. subst out. apply call_lookup_other; [exact Hp|].
    intros f' dt Hl' Hdt. rewrite Hl in Hl'. inversion Hl'; subst f'.
    apply Ht. exact Hdt. }
  subst out new_path. rewrite upload_file_to_s3_run.
  unfold upload_file_to_s3_cases, snoc_events. rewrite Hl.
  destruct (fromtimestamp utcoffset (creation_time f)) as [dt|] eqn:Hdt.
  2:{ cbn [fst snd fs]. split; [intros H; discriminate H|].
      intros _. left. exact Hl. }
  cbv zeta.
  match goal with
  | |- context [upload_outcome c ?w2 ?a ?b ?k] =>
      destruct (upload_outcome c w2 a b k) as [[o|o|o]|]
  end; cbn [fst snd fs].
  1-3: split; [intros H; discriminate H|];
       intros _; right; exists dt; split; [reflexivity|];
       apply lookup_renamed_dst; exact Hl.
  split; [|intros H; exfalso; apply H; reflexivity].
  intros _. split.
  - destruct (path_eq_dec file_path (truediv dir (gcam_name dt))) as [E|Hne].
    + rewrite E at 1. apply lookup_remove_same.
    + rewrite lookup_remove_other by exact Hne.
      apply lookup_renamed_src. exact Hne.
  - exists dt. split; [reflexivity|]. apply lookup_remove_same.
Qed.



(** X6.  A run in which every upload succeeds.  With a complete
    configuration, a client that never fails, creation times that
    convert and new names that are not taken, [main] comes to its end
    normally; every file returned by the scan has been uploaded once,
    in the order of the scan and under the key made from its creation
    time, and is on disk no more; every other path is as it was. *)
Theorem successful_run_uploads_and_removes_all :
  forall utcoffset boto3_client env w c,
    NoDup (map fst (fs w)) ->
    missing_config env = false ->
    boto3_client "s3" (checked (AWS_REGION env)) = Some c ->
    always_succeeds c ->
    let files := select_files (iterdir RECORDINGS_DIR (fs w)) in
    files <> [] ->
    (forall p, In p files ->
       exists dt,
         birth_of utcoffset (fs w) p = Some dt /\
         lookup (truediv RECORDINGS_DIR (gcam_name dt)) (fs w) = None) ->
    let out := main utcoffset boto3_client env w in
    fst out = Ok tt /\
    (forall p, In p files -> lookup p (fs (snd out)) = None) /\
    (forall p, ~ In p files -> lookup p (fs (snd out)) = lookup p (fs w)) /\
    exists evs,
      trace (snd out) = (trace w ++ evs)%list /\
      filter is_upload evs
        = flat_map (expected_upload utcoffset env (fs w)) files /\
      count is_unlink evs = List.length files /\
      count is_rename evs = List.length files.
Proof.
  intros utcoffset boto3_client env w c Hnd Hcfg Hcl Hok files Hne Hfiles out.
  assert (Hndf : NoDup files).
  { subst files. rewrite select_files_eq.
    set (l := sorted_by_mtime (filter is_mp4_file (iterdir RECORDINGS_DIR (fs w)))).
    assert (Hl : NoDup (map fst l)).
    { eapply Permutation_NoDup;
        [apply Permutation_map, Permutation_sym, sorted_by_mtime_perm|].
      unfold iterdir. apply NoDup_map_fst_filter, NoDup_map_fst_filter, Hnd. }
    destruct l as [|x l']; [constructor|].
    assert (Hx : x :: l' <> []) by discriminate.
    rewrite (app_removelast_last x Hx), map_app in Hl.
    apply NoDup_app_remove_r in Hl. exact Hl. }
  subst out. rewrite main_run. unfold main_cases, snoc_events.
  rewrite Hcfg, Hcl. fold files.
  destruct files as [|p0 rest] eqn:Efiles; [contradiction|].
  rewrite <- Efiles in *.
  match goal with
  | |- context [main_loop utcoffset env c files ?w2] =>
      destruct (main_loop_all_ok utcoffset env c Hok files w2 Hndf Hfiles)
        as (w' & Hrun & Hgone & Hkept & evs & Htr & Hup & Hun & Hre)
  end.
  rewrite Hrun. cbn [fst snd fs trace] in *.
  split; [reflexivity|]. split; [exact Hgone|]. split; [exact Hkept|].
  eexists. split; [rewrite Htr, <- app_assoc; reflexivity|].
  rewrite filter_app, !count_app, Hup, Hun, Hre.
  repeat split; reflexivity.
Qed.

(** X7.  A run in which every upload fails.  With a complete
    configuration, a client that could be created and whose uploads all
    fail with [BotoCoreError] or [ClientError], a scan that returns at
    least one file, creation times that convert and new names that are
    not taken when the run starts, [main] calls [upload_file_to_s3] on
    every file returned by the scan, makes one upload for each and never
    unlinks; it then comes to its end normally: the failures do not show
    in the way [main] ends. *)
Theorem failing_run_attempts_every_file :
  forall utcoffset boto3_client env w c,
    NoDup (map fst (fs w)) ->
    missing_config env = false ->
    boto3_client "s3" (checked (AWS_REGION env)) = Some c ->
    always_fails c ->
    let files := select_files (iterdir RECORDINGS_DIR (fs w)) in
    files <> [] ->
    (forall p, In p files ->
       exists dt,
         birth_of utcoffset (fs w) p = Some dt /\
         lookup (truediv RECORDINGS_DIR (gcam_name dt)) (fs w) = None) ->
    let out := main utcoffset boto3_client env w in
    fst out = Ok tt /\
    exists evs,
      trace (snd out) = (trace w ++ evs)%list /\
      map fst (calls evs) = files /\
      count is_upload evs = List.length files /\
      count is_unlink evs = O /\
      Forall (fun e => forall fn b k, e <> EvUpload fn b k None) evs.
Proof.
  intros utcoffset boto3_client env w c Hnd Hcfg Hcl Hfail files Hne Hfree out.
  assert (Hfiles : forall p, In p files ->
                     exists dt, birth_of utcoffset (fs w) p = Some dt).
  { intros p Hp. destruct (Hfree p Hp) as (dt & Hb & _). exists dt. exact Hb. }
  assert (Hndf : NoDup files).
  { subst files. rewrite select_files_eq.
    set (l := sorted_by_mtime (filter is_mp4_file (iterdir RECORDINGS_DIR (fs w)))).
    assert (Hl : NoDup (map fst l)).
    { eapply Permutation_NoDup;
        [apply Permutation_map, Permutation_sym, sorted_by_mtime_perm|].
      unfold iterdir. apply NoDup_map_fst_filter, NoDup_map_fst_filter, Hnd. }
    destruct l as [|x l']; [constructor|].
    assert (Hx : x :: l' <> []) by discriminate.
    rewrite (app_removelast_last x Hx), map_app in Hl.
    apply NoDup_app_remove_r in Hl. exact Hl. }
  subst out. rewrite main_run. unfold main_cases, snoc_events.
  rewrite Hcfg, Hcl. fold files.
  destruct files as [|p0 rest] eqn:Efiles; [contradiction|].
  rewrite <- Efiles in *.
  match goal with
  | |- context [main_loop utcoffset env c files ?w2] =>
      destruct (main_loop_all_fail utcoffset env c Hfail files w2 Hndf Hfiles)
        as (w' & Hrun & evs & Htr & Hup & Hun & Hall);
      destruct (main_loop_calls utcoffset env c files w2)
        as (evs' & Htr' & _ & (rest' & Hpre & Hdone) & _)
  end.
  rewrite Hrun in *. cbn [fst snd fs trace] in *.
  rewrite Htr in Htr'. apply app_inv_head in Htr'. subst evs'.
  rewrite (Hdone eq_refl), app_nil_r in Hpre.
  split; [reflexivity|].
  eexists. split; [rewrite Htr, <- app_assoc; reflexivity|].
  cbn [app calls]. split; [symmetry; exact Hpre|].
  change (EvClient "s3" (checked (AWS_REGION env)) :: EvScan RECORDINGS_DIR :: evs)
    with ([EvClient "s3" (checked (AWS_REGION env)); EvScan RECORDINGS_DIR]
            ++ evs)%list.
  rewrite !count_app, Hup, Hun.
  split; [reflexivity|]. split; [reflexivity|].
  apply Forall_app. split; [|exact Hall].
  repeat constructor; intros fn b k E; discriminate E.
Qed.

(** X8.  The configured prefix is the value of [S3_PREFIX] without its
    trailing slashes, and nothing else is changed: the value is the
    prefix followed by slashes only, the prefix does not end with a
    slash, and it is the only string with these two properties.  An
    unset variable, or one made of slashes only, gives the empty
    prefix. *)
Theorem prefix_loses_only_trailing_slashes :
  forall env,
    let value := getenv_default (env_S3_PREFIX env) "" in
    (exists k, value = S3_PREFIX env ++ slashes k) /\
    ends_with_slash (S3_PREFIX env) = false /\
    (forall t k,
        value = t ++ slashes k -> ends_with_slash t = false ->
        t = S3_PREFIX env) /\
    (env_S3_PREFIX env = None -> S3_PREFIX env = "") /\
    (forall k, env_S3_PREFIX env = Some (slashes k) -> S3_PREFIX env = "").
Proof.
  intros env value. unfold S3_PREFIX. fold value.
  split; [apply rstrip_decompose|].
  split; [apply rstrip_no_trailing_slash|].
  split.
  { intros t k Hv Ht. rewrite Hv, rstrip_app_slashes.
    symmetry. apply rstrip_fixed. exact Ht. }
  split.
  { intros H. subst value. rewrite H. reflexivity. }
  intros k H. subst value. rewrite H. apply rstrip_slashes.
Qed.

(** X9.  A file whose upload failed is picked up again.  When a call on
    a regular file has tried the upload and the upload has failed, with
    whatever exception, the call has not returned [True], and the file
    is an entry of the recordings directory with suffix [.mp4], under
    its new name: a later scan has it, the file with the same inode
    number, among its candidates. *)
Theorem failed_file_is_a_candidate_again :
  forall utcoffset file_path s3_client bucket prefix recordings_dir w f,
    lookup file_path (fs w) = Some f ->
    is_file f = true ->
    let out := upload_file_to_s3 utcoffset file_path s3_client bucket prefix
                 recordings_dir w in
    forall evs fn b k e,
      trace (snd out) = (trace w ++ evs)%list ->
      In (EvUpload fn b k (Some e)) evs ->
      exists dt g,
        fromtimestamp utcoffset (creation_time f) = Some dt /\
        fn = str (truediv recordings_dir
                    (strftime "gcam_%d%m%Y_%H%M%S.mp4" dt)) /\
        fst out <> Ok true /\
        ino g = ino f /\
        In (truediv recordings_dir (strftime "gcam_%d%m%Y_%H%M%S.mp4" dt), g)
           (filter is_mp4_file (iterdir recordings_dir (fs (snd out)))).
Proof.
  intros utcoffset file_path c bucket prefix dir w f Hl Hfile out
    evs fn b k e Htr Hin.
  assert (Hcand : forall dt fs0,
             lookup (truediv dir (gcam_name dt)) fs0 = Some f ->
             In (truediv dir (gcam_name dt), f)
                (filter is_mp4_file (iterdir dir fs0))).
  { intros dt fs0 H. unfold iterdir. rewrite !filter_In.
    split; [split; [apply lookup_In; exact H|]|].
    - cbn [fst]. apply in_dir_iff. rewrite name_truediv. reflexivity.
    - unfold is_mp4_file. cbn [fst snd].
      rewrite Hfile, suffix_gcam_name. reflexivity. }
  subst out. revert Htr. rewrite upload_file_to_s3_run.
  unfold upload_file_to_s3_cases, snoc_events. rewrite Hl.
  destruct (fromtimestamp utcoffset (creation_time f)) as [dt|] eqn:Hdt.
  2:{ cbn [fst snd trace]. intros Htr. apply app_inv_head in Htr. subst evs.
      destruct Hin as [H|[]]. discriminate H. }
  pose proof (fromtimestamp_valid _ _ _ Hdt) as Hv.
  cbv zeta.
  match goal with
  | |- context [upload_outcome c ?w2 ?a ?b' ?k'] =>
      destruct (upload_outcome c w2 a b' k') as [[o|o|o]|]
  end; cbn [fst snd fs trace]; intros Htr;
    apply app_inv_head in Htr; subst evs;
    cbn [app In] in Hin;
    repeat (destruct Hin as [Hin|Hin]; try discriminate Hin);
    try contradiction;
    inversion Hin; subst;
    exists dt, f; rewrite (strftime_gcam dt Hv);
    (split; [reflexivity|]); (split; [reflexivity|]);
    (split; [intros E; discriminate E|]);
    (split; [reflexivity|]);
    apply Hcand, lookup_renamed_dst; exact Hl.
Qed.

End RunProps.

(** ** The properties of whole runs at work on the example directory *)

Module RunWitnesses.
Import Pathlib PathlibFacts Datetime Fs FsFacts Py Uploader Spec RunSpec
  Examples RunExamples RunProps.

Lemma ok_client_always_succeeds : always_succeeds ok_client.
Proof. intros w fn b k. reflexivity. Defined.

Lemma denied_client_always_fails : always_fails denied_client.
Proof.
  intros w fn b k. exists (UploadClientError "AccessDenied").
  split; reflexivity.
Defined.

Lemma w0_files : select_files (iterdir RECORDINGS_DIR (fs w0)) = [a_path; b_path].
Proof. reflexivity. Defined.

Lemma not_gcam_name (s : string) dt :
  (forall r, s <> String "g" r) ->
  [("recordings")%string; s] <> truediv RECORDINGS_DIR (gcam_name dt).
Proof.
  intros Hs E. inversion E as [E']. apply (Hs _ E').
Defined.

(** X1, for a path that is not on disk. *)
Lemma missing_file_stops_the_run_witness :
  lookup gone_path (fs w0) = None /\
  main_loop utc env0 ok_client [gone_path; a_path] w0
    = (Raise (FileNotFoundError "recordings/gone.mp4"),
       {| fs := fs w0; trace := [EvStat gone_path] |}).
Proof.
  split; [reflexivity|].
  exact (proj2 (missing_file_stops_the_run utc env0 ok_client gone_path
                  [a_path] w0 eq_refl)).
Defined.

(** X2, with a client whose transfers fail: the run stops at [a.mp4]. *)
Lemma unhandled_upload_error_stops_the_run_witness :
  let out := upload_file_to_s3 utc a_path broken_client
               (checked (S3_BUCKET env0)) (S3_PREFIX env0) RECORDINGS_DIR w0 in
  fst out = Raise (S3UploadFailedError "Failed to upload") /\
  main_loop utc env0 broken_client [a_path; b_path] w0
    = (Raise (S3UploadFailedError "Failed to upload"), snd out).
Proof.
  cbv zeta.
  destruct (unhandled_upload_error_stops_the_run utc env0 broken_client a_path
              [b_path] w0) as (evs & Htr & Hfail).
  vm_compute in Htr. subst evs.
  destruct (Hfail _ _ _ _
              (or_intror (or_intror (or_intror (or_introl eq_refl)))))
    as (Hret & _ & _ & _ & Hloop).
  split; [exact Hret | exact Hloop].
Defined.

(** X3, when the upload of [a.mp4] is denied: [c.mp4] is as it was. *)
Lemma call_effect_on_files_witness :
  lookup a_path (fs w0) = Some a_file /\
  lookup c_path
    (fs (snd (upload_file_to_s3 utc a_path denied_client "bucket" "videos"
                RECORDINGS_DIR w0)))
    = Some c_file.
Proof.
  split; [reflexivity|].
  destruct (call_effect_on_files utc a_path denied_client "bucket" "videos"
              RECORDINGS_DIR w0 a_file eq_refl) as (Hother & _ & _).
  rewrite (Hother c_path).
  - reflexivity.
  - discriminate.
  - intros dt _. apply not_gcam_name. intros r E. discriminate E.
Defined.



Lemma w0_new_names_free :
  forall p, In p (select_files (iterdir RECORDINGS_DIR (fs w0))) ->
    exists dt,
      birth_of utc (fs w0) p = Some dt /\
      lookup (truediv RECORDINGS_DIR (gcam_name dt)) (fs w0) = None.
Proof.
  intros p Hp. rewrite w0_files in Hp.
  destruct Hp as [<-|[<-|[]]].
  - exists a_dt. split; reflexivity.
  - exists b_dt. split; reflexivity.
Defined.

(** X6, on the example directory with a client that never fails. *)
Lemma successful_run_uploads_and_removes_all_witness :
  fst (main utc boto3_ok env0 w0) = Ok tt /\
  lookup a_path (fs (snd (main utc boto3_ok env0 w0))) = None /\
  lookup b_path (fs (snd (main utc boto3_ok env0 w0))) = None /\
  lookup c_path (fs (snd (main utc boto3_ok env0 w0))) = Some c_file.
Proof.
  assert (Hne : select_files (iterdir RECORDINGS_DIR (fs w0)) <> [])
    by (rewrite w0_files; discriminate).
  destruct (successful_run_uploads_and_removes_all utc boto3_ok env0 w0
              ok_client Witnesses.w0_NoDup eq_refl eq_refl
              ok_client_always_succeeds Hne w0_new_names_free)
    as (Hret & Hgone & Hkept & _).
  split; [exact Hret|].
  split; [apply Hgone; rewrite w0_files; left; reflexivity|].
  split; [apply Hgone; rewrite w0_files; right; left; reflexivity|].
  rewrite Hkept; [reflexivity|].
  rewrite w0_files. intros [H|[H|[]]]; discriminate H.
Defined.

(** X7, on the example directory with a client that denies everything. *)
Lemma failing_run_attempts_every_file_witness :
  fst (main utc boto3_denied env0 w0) = Ok tt /\
  exists evs,
    trace (snd (main utc boto3_denied env0 w0)) = (trace w0 ++ evs)%list /\
    map fst (calls evs) = [a_path; b_path] /\
    count is_upload evs = 2%nat /\
    count is_unlink evs = O.
Proof.
  assert (Hne : select_files (iterdir RECORDINGS_DIR (fs w0)) <> [])
    by (rewrite w0_files; discriminate).
  destruct (failing_run_attempts_every_file utc boto3_denied env0 w0
              denied_client Witnesses.w0_NoDup eq_refl eq_refl
              denied_client_always_fails Hne w0_new_names_free)
    as (Hret & evs & Htr & Hcalls & Hup & Hun & _).
  split; [exact Hret|].
  exists evs. split; [exact Htr|].
  split; [rewrite Hcalls; apply w0_files|].
  split; [rewrite Hup, w0_files; reflexivity | exact Hun].
Defined.

(** X8, for [S3_PREFIX=/videos/]. *)
Lemma prefix_loses_only_trailing_slashes_witness :
  S3_PREFIX env0 = "/videos" /\ ends_with_slash (S3_PREFIX env0) = false.
Proof.
  split; [reflexivity|].
  exact (proj1 (proj2 (prefix_loses_only_trailing_slashes env0))).
Defined.

(** X9, when the upload of [a.mp4] is denied. *)
Lemma failed_file_is_a_candidate_again_witness :
  let out := upload_file_to_s3 utc a_path denied_client "bucket" "videos"
               RECORDINGS_DIR w0 in
  lookup a_path (fs w0) = Some a_file /\
  is_file a_file = true /\
  In (EvUpload "recordings/gcam_01011970_000001.mp4" "bucket"
        "videos/1970-01-01/gcam_01011970_000001.mp4"
        (Some (UploadClientError "AccessDenied")))
     (trace (snd out)) /\
  exists g,
    ino g = ino a_file /\
    In (["recordings"; "gcam_01011970_000001.mp4"], g)
       (filter is_mp4_file (iterdir RECORDINGS_DIR (fs (snd out)))).
Proof.
  cbv zeta.
  assert (Hin : In (EvUpload "recordings/gcam_01011970_000001.mp4" "bucket"
                      "videos/1970-01-01/gcam_01011970_000001.mp4"
                      (Some (UploadClientError "AccessDenied")))
                   (trace (snd (upload_file_to_s3 utc a_path denied_client
                                  "bucket" "videos" RECORDINGS_DIR w0))))
    by (vm_compute; do 3 right; left; reflexivity).
  split; [reflexivity|]. split; [reflexivity|]. split; [exact Hin|].
  destruct (failed_file_is_a_candidate_again utc a_path denied_client "bucket"
              "videos" RECORDINGS_DIR w0 a_file eq_refl eq_refl
              _ _ _ _ _ eq_refl Hin) as (dt & g & Hdt & _ & _ & Hg & Hcand).
  assert (E : Some dt = Some a_dt) by (rewrite <- Hdt; reflexivity).
  injection E as E. rewrite E in Hcand.
  exists g. split; [exact Hg | exact Hcand].
Defined.

End RunWitnesses.

(** ** Facts for runs that follow one another, and for listings *)

Module MoreRunFacts.
Import Pathlib PathlibFacts Datetime DatetimeFacts Fs FsFacts Py Uploader Spec
  RunSpec UploadFacts CallFacts SelectFacts MainFacts RunFacts.

Lemma remove_absent q fs0 : lookup q fs0 = None -> remove q fs0 = fs0.
Proof.
  induction fs0 as [|[x f] rest IH]; [reflexivity|].
  cbn [lookup remove filter fst]. fold (remove q rest).
  destruct (path_eqb x q); [discriminate|].
  intros H. cbn [negb]. rewrite (IH H). reflexivity.
Qed.

Lemma fs_after_ok src dst f fs0 :
  lookup src fs0 = Some f -> lookup dst fs0 = None ->
  remove dst (renamed src dst f fs0) = remove src fs0.
Proof.
  intros Hs Hd.
  assert (Hne : src <> dst) by (intros E; congruence).
  unfold renamed. apply path_eqb_neq in Hne. rewrite Hne.
  apply path_eqb_neq in Hne.
  cbn [remove filter fst]. rewrite path_eqb_refl. cbn [negb].
  fold (remove dst (remove dst (remove src fs0))).
  rewrite (remove_absent dst (remove dst (remove src fs0)))
    by apply lookup_remove_same.
  apply remove_absent.
  rewrite lookup_remove_other by congruence. exact Hd.
Qed.

Lemma filter_remove (P : Path * File -> bool) q l :
  filter P (remove q l) = remove q (filter P l).
Proof.
  unfold remove. induction l as [|x l IH]; [reflexivity|].
  cbn [filter]. destruct (negb (path_eqb (fst x) q)) eqn:E1, (P x) eqn:E2;
    cbn [filter]; rewrite ?E1, ?E2, IH; reflexivity.
Qed.

Lemma filter_without (P : Path * File -> bool) ps : forall l,
  filter P (without ps l) = without ps (filter P l).
Proof.
  unfold without. induction ps as [|q ps IH]; intros l; [reflexivity|].
  cbn [fold_left]. rewrite IH, filter_remove. reflexivity.
Qed.

Lemma Permutation_filter {A} (P : A -> bool) l l' :
  Permutation l l' -> Permutation (filter P l) (filter P l').
Proof.
  induction 1 as [|x l l' _ IH|x y l|l l' l'' _ IH1 _ IH2]; cbn [filter].
  - constructor.
  - destruct (P x); [constructor|]; exact IH.
  - destruct (P x), (P y); try apply Permutation_refl. apply perm_swap.
  - eapply Permutation_trans; eassumption.
Qed.

Lemma Permutation_without ps : forall l l',
  Permutation l l' -> Permutation (without ps l) (without ps l').
Proof.
  unfold without. induction ps as [|q ps IH]; intros l l' H; [exact H|].
  cbn [fold_left]. apply IH. unfold remove. apply Permutation_filter, H.
Qed.

Lemma remove_not_in q (l : FS) : ~ In q (map fst l) -> remove q l = l.
Proof.
  induction l as [|[x f] rest IH]; [reflexivity|].
  cbn [map fst In remove filter]. fold (remove q rest).
  intros H.
  assert (E : path_eqb x q = false).
  { apply path_eqb_neq. intros ->. apply H. left. reflexivity. }
  rewrite E. cbn [negb]. rewrite IH; [reflexivity|].
  intros Hin. apply H. right. exact Hin.
Qed.

(** Removing all the entries of a list but the last leaves the last. *)
Lemma without_all_but_last (pre : FS) x :
  NoDup (map fst (pre ++ [x]))%list ->
  without (map fst pre) (pre ++ [x])%list = [x].
Proof.
  unfold without. induction pre as [|[q f] pre IH]; intros Hnd; [reflexivity|].
  cbn [map fst app fold_left] in *.
  inversion Hnd as [|? ? Hnotin Hnd']; subst.
  cbn [remove filter fst]. rewrite path_eqb_refl. cbn [negb].
  fold (remove q (pre ++ [x])%list).
  rewrite (remove_not_in q _ Hnotin). apply IH, Hnd'.
Qed.

(** The file system at the end of a loop in which every upload
    succeeded. *)
Lemma main_loop_all_ok_fs utcoffset env c :
  always_succeeds c ->
  forall files w,
    NoDup files ->
    (forall p, In p files ->
       exists dt,
         birth_of utcoffset (fs w) p = Some dt /\
         lookup (truediv RECORDINGS_DIR (gcam_name dt)) (fs w) = None) ->
    fs (snd (main_loop utcoffset env c files w)) = without files (fs w).
Proof.
  intros Hc files. induction files as [|p rest IH]; intros w Hnd Hfiles.
  - reflexivity.
  - inversion Hnd as [|? ? Hnotin Hnd']; subst.
    destruct (Hfiles p (or_introl eq_refl)) as (dt & Hb & Hfree).
    destruct (birth_of_some _ _ _ _ Hb) as (f & Hl & Hdt).
    rewrite main_loop_cons.
    rewrite (call_ok utcoffset p c _ _ RECORDINGS_DIR w f dt Hl Hdt Hc).
    rewrite (fs_after_ok _ _ _ _ Hl Hfree).
    match goal with
    | |- context [main_loop utcoffset env c rest ?w1] => rewrite (IH w1 Hnd')
    end; [reflexivity|].
    intros q Hq. cbn [fs].
    assert (Hqp : q <> p) by (intros ->; contradiction).
    destruct (Hfiles q (or_intror Hq)) as (dtq & Hbq & Hfreeq).
    exists dtq. split.
    + rewrite <- Hbq. apply birth_of_ext. apply lookup_remove_other. exact Hqp.
    + destruct (path_eq_dec (truediv RECORDINGS_DIR (gcam_name dtq)) p)
        as [->|Hne].
      * apply lookup_remove_same.
      * rewrite lookup_remove_other by exact Hne. exact Hfreeq.
Qed.

(** Two sorted lists with the same entries are equal when no two
    entries share a modification time. *)
Lemma sorted_by_mtime_unique l1 : forall l2,
  StronglySorted mtime_le l1 -> StronglySorted mtime_le l2 ->
  Permutation l1 l2 ->
  (forall a b, In a l1 -> In b l1 ->
               st_mtime (snd a) = st_mtime (snd b) -> a = b) ->
  l1 = l2.
Proof.
  induction l1 as [|a l1 IH]; intros l2 H1 H2 Hp Hinj.
  - apply Permutation_nil in Hp. symmetry. exact Hp.
  - destruct l2 as [|b l2].
    { apply Permutation_sym, Permutation_nil in Hp. discriminate Hp. }
    inversion H1 as [|? ? H1' Ha]; subst.
    inversion H2 as [|? ? H2' Hb]; subst.
    rewrite Forall_forall in Ha, Hb.
    assert (Hbin : In b (a :: l1))
      by (eapply Permutation_in; [apply Permutation_sym, Hp | left; reflexivity]).
    assert (Hain : In a (b :: l2))
      by (eapply Permutation_in; [apply Hp | left; reflexivity]).
    assert (Hab : a = b).
    { apply Hinj; [left; reflexivity | exact Hbin |].
      assert (Hle1 : st_mtime (snd a) <= st_mtime (snd b)).
      { destruct Hbin as [<-|Hbin]; [lia | apply (Ha b Hbin)]. }
      assert (Hle2 : st_mtime (snd b) <= st_mtime (snd a)).
      { destruct Hain as [<-|Hain]; [lia | apply (Hb a Hain)]. }
      lia. }
    subst b. f_equal.
    apply IH; [assumption | assumption | |].
    + eapply Permutation_cons_inv. exact Hp.
    + intros x y Hx Hy. apply Hinj; right; assumption.
Qed.

End MoreRunFacts.

(** ** Further properties: names, listings, a second run *)

Module MoreProps.
Import Pathlib PathlibFacts Datetime DatetimeFacts StringFacts Fs FsFacts Py
  Uploader Spec RunSpec UploadFacts CallFacts SelectFacts MainFacts RunFacts
  MoreRunFacts.




(** X11.  The scan does not depend on the order in which the directory
    is listed, as long as no two candidates have the same modification
    time. *)
Theorem scan_ignores_listing_order :
  forall recordings_dir w1 w2,
    Permutation (fs w1) (fs w2) ->
    (forall a b,
        In a (filter is_mp4_file (iterdir recordings_dir (fs w1))) ->
        In b (filter is_mp4_file (iterdir recordings_dir (fs w1))) ->
        st_mtime (snd a) = st_mtime (snd b) -> a = b) ->
    fst (get_files_to_upload recordings_dir w1)
      = fst (get_files_to_upload recordings_dir w2).
Proof.
  intros dir w1 w2 Hp Hinj.
  unfold get_files_to_upload, bind, emit. cbn [fst snd fs].
  rewrite !select_files_eq. do 3 f_equal.
  set (c1 := filter is_mp4_file (iterdir dir (fs w1))) in *.
  set (c2 := filter is_mp4_file (iterdir dir (fs w2))).
  assert (Hc : Permutation c1 c2).
  { subst c1 c2. unfold iterdir. do 2 apply Permutation_filter. exact Hp. }
  apply sorted_by_mtime_unique.
  - apply sorted_by_mtime_strongly_sorted.
  - apply sorted_by_mtime_strongly_sorted.
  - eapply Permutation_trans; [apply sorted_by_mtime_perm|].
    eapply Permutation_trans; [exact Hc|].
    apply Permutation_sym, sorted_by_mtime_perm.
  - intros a b Ha Hb. apply Hinj;
      (eapply Permutation_in; [apply sorted_by_mtime_perm | assumption]).
Qed.

(** X12.  A second run right after a run in which every upload
    succeeded finds a single candidate, the recording that was left
    out: it prints [Not enough files to process] and exits with status
    0, and the file system stays as the first run left it. *)
Theorem second_run_finds_nothing_to_do :
  forall utcoffset boto3_client env w c,
    NoDup (map fst (fs w)) ->
    missing_config env = false ->
    boto3_client "s3" (checked (AWS_REGION env)) = Some c ->
    always_succeeds c ->
    let files := select_files (iterdir RECORDINGS_DIR (fs w)) in
    files <> [] ->
    (forall p, In p files ->
       exists dt,
         birth_of utcoffset (fs w) p = Some dt /\
         lookup (truediv RECORDINGS_DIR (gcam_name dt)) (fs w) = None) ->
    let w' := snd (main utcoffset boto3_client env w) in
    fs w' = without files (fs w) /\
    List.length (filter is_mp4_file (iterdir RECORDINGS_DIR (fs w'))) = 1%nat /\
    main utcoffset boto3_client env w' =
      (Raise (SystemExit 0),
       {| fs := fs w';
          trace := (trace w' ++
            [EvClient "s3" (checked (AWS_REGION env));
             EvScan RECORDINGS_DIR;
             EvPrint "Not enough files to process"])%list |}).
Proof.
  intros utcoffset boto3_client env w c Hnd Hcfg Hcl Hok files Hne Hfiles w'.
  set (cands := filter is_mp4_file (iterdir RECORDINGS_DIR (fs w))).
  set (sorted := sorted_by_mtime cands).
  assert (Hperm : Permutation sorted cands) by apply sorted_by_mtime_perm.
  assert (Hnds : NoDup (map fst sorted)).
  { eapply Permutation_NoDup;
      [apply Permutation_map, Permutation_sym, Hperm|].
    subst cands. unfold iterdir.
    apply NoDup_map_fst_filter, NoDup_map_fst_filter, Hnd. }
  assert (Hfiles_eq : files = map fst (removelast sorted))
    by apply select_files_eq.
  assert (Hsne : sorted <> []).
  { intros E. apply Hne. rewrite Hfiles_eq, E. reflexivity. }
  assert (Hndf : NoDup files).
  { rewrite Hfiles_eq.
    destruct sorted as [|x l'] eqn:Es; [constructor|].
    rewrite (app_removelast_last x Hsne), map_app in Hnds.
    apply NoDup_app_remove_r in Hnds. exact Hnds. }
  assert (Hfs : fs w' = without files (fs w)).
  { subst w'. rewrite main_run. unfold main_cases, snoc_events.
    rewrite Hcfg, Hcl. fold files.
    destruct files as [|p0 rest] eqn:Efiles; [contradiction|].
    rewrite <- Efiles in *.
    match goal with
    | |- context [main_loop utcoffset env c files ?w2] =>
        rewrite (main_loop_all_ok_fs utcoffset env c Hok files w2 Hndf Hfiles)
    end. reflexivity. }
  assert (Hone : List.length (filter is_mp4_file
                                (iterdir RECORDINGS_DIR (fs w'))) = 1%nat).
  { rewrite Hfs. unfold iterdir. rewrite !filter_without.
    fold (iterdir RECORDINGS_DIR (fs w)). fold cands.
    rewrite (Permutation_length
               (Permutation_without files _ _ (Permutation_sym Hperm))).
    rewrite Hfiles_eq.
    pose proof (app_removelast_last (last sorted (RECORDINGS_DIR,
                  {| ino := 0; is_file := true; st_mtime := 0;
                     st_birthtime := None; st_ctime := 0 |})) Hsne) as Hsplit.
    rewrite Hsplit at 2. rewrite Hsplit in Hnds.
    rewrite (without_all_but_last _ _ Hnds). reflexivity. }
  split; [exact Hfs|]. split; [exact Hone|].
  rewrite main_run. unfold main_cases, snoc_events. rewrite Hcfg, Hcl.
  rewrite (MainProps.select_files_few (iterdir RECORDINGS_DIR (fs w')));
    [reflexivity | rewrite Hone; lia].
Qed.

End MoreProps.

(** ** These further properties at work on the example directory *)

Module MoreWitnesses.
Import Pathlib PathlibFacts Datetime Fs FsFacts Py Uploader Spec RunSpec
  Examples RunExamples MoreProps.


(** X11, for the example directory listed in both orders. *)
Lemma scan_ignores_listing_order_witness :
  Permutation (fs w0) (fs w0_reversed) /\
  fs w0 <> fs w0_reversed /\
  fst (get_files_to_upload RECORDINGS_DIR w0)
    = fst (get_files_to_upload RECORDINGS_DIR w0_reversed).
Proof.
  assert (Hp : Permutation (fs w0) (fs w0_reversed)) by apply Permutation_rev.
  split; [exact Hp|]. split; [discriminate|].
  apply (scan_ignores_listing_order RECORDINGS_DIR w0 w0_reversed Hp).
  intros a b Ha Hb Heq.
  change (filter is_mp4_file (iterdir RECORDINGS_DIR (fs w0)))
    with [(c_path, c_file); (a_path, a_file); (b_path, b_file)] in Ha, Hb.
  destruct Ha as [<-|[<-|[<-|[]]]]; destruct Hb as [<-|[<-|[<-|[]]]];
    first [reflexivity | discriminate Heq].
Defined.

(** X12, on the example directory: the second run exits at once. *)
Lemma second_run_finds_nothing_to_do_witness :
  fst (main utc boto3_ok env0 (snd (main utc boto3_ok env0 w0)))
    = Raise (SystemExit 0) /\
  fs (snd (main utc boto3_ok env0 (snd (main utc boto3_ok env0 w0))))
    = fs (snd (main utc boto3_ok env0 w0)).
Proof.
  assert (Hne : select_files (iterdir RECORDINGS_DIR (fs w0)) <> [])
    by (rewrite RunWitnesses.w0_files; discriminate).
  destruct (second_run_finds_nothing_to_do utc boto3_ok env0 w0 ok_client
              Witnesses.w0_NoDup eq_refl eq_refl
              RunWitnesses.ok_client_always_succeeds Hne
              RunWitnesses.w0_new_names_free) as (_ & _ & Hrun).
  rewrite Hrun. split; reflexivity.
Defined.

End MoreWitnesses.
